(** * tcxaet: per-lap statistics of TCX files

    A shallow embedding of [tcxaet.py] and the properties of its lap
    pipeline: [read_tcx_files], [parse_tcx_lap], [get_lap_times_and_duration],
    [lap_halftime_value], [parse_laps], [csv_output] and the pace helpers.

    Numbers.  Python floats and NumPy float64 scalars are IEEE binary64
    values; they are modelled by Rocq's primitive floats, so every closed
    run below is computed with the arithmetic of the program.  The two
    kinds of value divide differently, and the model keeps them apart:
    - a Python [float] divided by zero raises [ZeroDivisionError]
      ([py_truediv]);
    - a NumPy scalar (what [Series.mean()], [Series.max()], a [Series]
      element or any arithmetic with one of them yields) divided by zero
      is [inf] or [nan] and raises nothing ([np_truediv]).  [numpy.float64]
      is a subclass of [float] that overrides the reflected operators, so
      a division with a NumPy scalar on either side is a NumPy division.

    Time.  pandas timestamps are integers, nanoseconds since the epoch;
    Python [datetime] values are microseconds. *)

From Stdlib Require Import ZArith List String Ascii Bool Lia.
From Stdlib Require Import Floats Uint63 DecimalString.
Import ListNotations.

Set Implicit Arguments.

(** ** Python exceptions and the result of a fallible call *)

Inductive exn : Type :=
| ZeroDivisionError
| ValueError
| OverflowError
| IndexError
| KeyError
| OSError
| XMLSyntaxError                          (* lxml.etree.XMLSyntaxError *)
| UnknownTimeZoneError
| Exception (msg : string).

Inductive result (A : Type) : Type :=
| Ok (a : A)
| Raise (e : exn).

Arguments Ok {A} a.
Arguments Raise {A} e.

Definition rbind {A B : Type} (r : result A) (k : A -> result B) : result B :=
  match r with
  | Ok a => k a
  | Raise e => Raise e
  end.

Notation "x <- r ;; k" := (rbind r (fun x => k))
  (at level 61, r at next level, right associativity).

Definition is_zero_division (e : exn) : bool :=
  match e with
  | ZeroDivisionError => true
  | _ => false
  end.

(** ** Numbers *)

(** [int -> float] as Python and NumPy convert an integer operand: the
    nearest float, ties to even, whatever the size of the integer.  (An
    integer beyond the largest float is [inf] here, where Python raises
    [OverflowError]; the integers of the script are integer parts of
    floats and never get there.) *)
Definition Z2float (z : Z) : float :=
  SF2Prim (binary_normalize prec emax z 0 false).

(** [x / y] on Python floats. *)
Definition py_truediv (x y : float) : result float :=
  if (y =? 0)%float then Raise ZeroDivisionError else Ok (x / y)%float.

(** [x / y] when an operand is a NumPy scalar: IEEE division, with a
    [RuntimeWarning] and no exception when [y] is zero. *)
Definition np_truediv (x y : float) : float := (x / y)%float.

(** The truth value of a float: [bool(x)] is [x != 0.0]. *)
Definition float_truthy (x : float) : bool := negb (x =? 0)%float.

(** The integer part of a finite float, towards zero; [None] on [inf] and
    [nan]. *)
Definition float_trunc (x : float) : option Z :=
  match Prim2SF x with
  | S754_zero _ => Some 0%Z
  | S754_finite s m e =>
      let v := match e with
               | Z0 => Zpos m
               | Zpos p => (Zpos m * 2 ^ Zpos p)%Z
               | Zneg p => (Zpos m / 2 ^ Zpos p)%Z
               end in
      Some (if s then (- v)%Z else v)
  | S754_infinity _ => None
  | S754_nan => None
  end.

(** C's [modf]: the fractional part, with the sign of [x], and the integer
    part.  A float of magnitude [2^53] or more has no fractional part. *)
Definition modf (x : float) (ip : Z) : float :=
  if (Z.abs ip <? 2 ^ 53)%Z then (x - Z2float ip)%float else 0%float.

(** [PyLong_FromDouble]. *)
Definition PyLong_FromDouble (x : float) : result Z :=
  match float_trunc x with
  | Some z => Ok z
  | None => if PrimFloat.is_nan x then Raise ValueError else Raise OverflowError
  end.

(** Python 3 [round(x)] of a float: the nearest integer, ties to even. *)
Definition py_round (x : float) : result Z :=
  ip <- PyLong_FromDouble x ;;
  let fr := PrimFloat.abs (modf x ip) in
  let away := if (x <? 0)%float then (ip - 1)%Z else (ip + 1)%Z in
  Ok (if (fr <? 0.5)%float then ip
      else if (fr =? 0.5)%float then (if Z.even ip then ip else away)
      else away).

(** ** Strings *)

Definition str_of_Z (z : Z) : string := NilZero.string_of_int (Z.to_int z).

Fixpoint string_repeat (c : ascii) (n : nat) : string :=
  match n with
  | O => EmptyString
  | S n' => String c (string_repeat c n')
  end.

(** [s.zfill(width)] for an unsigned numeral. *)
Definition zfill (width : nat) (s : string) : string :=
  (string_repeat "0"%char (width - String.length s) ++ s)%string.

(** [%0<width>d] of a non-negative integer. *)
Definition fmt_0d (width : nat) (z : Z) : string := zfill width (str_of_Z z).

(** [s.split(sep)] for a one-character separator. *)
Fixpoint split_on (sep : ascii) (s : string) : list string :=
  match s with
  | EmptyString => [EmptyString]
  | String c rest =>
      if Ascii.eqb c sep then EmptyString :: split_on sep rest
      else match split_on sep rest with
           | [] => [String c EmptyString]
           | w :: ws => String c w :: ws
           end
  end.

(** [l[-k]] for [k >= 1]. *)
Definition nth_from_end {A : Type} (k : nat) (l : list A) : result A :=
  match nth_error (rev l) (k - 1) with
  | Some a => Ok a
  | None => Raise IndexError
  end.

Definition digit_val (c : ascii) : option Z :=
  let n := nat_of_ascii c in
  if andb (48 <=? n)%nat (n <=? 57)%nat then Some (Z.of_nat (n - 48)) else None.

Fixpoint digits_val (acc : Z) (s : string) : option Z :=
  match s with
  | EmptyString => Some acc
  | String c rest =>
      match digit_val c with
      | Some d => digits_val (10 * acc + d)%Z rest
      | None => None
      end
  end.

(** [float(s)] for an unsigned decimal numeral [d+] or [d+.d+] whose digits,
    read as one integer, stay below [2^53]: the quotient of two exact floats
    is then the correctly rounded value of the numeral. *)
Definition float_of_decimal (s : string) : result float :=
  match split_on "."%char s with
  | [i] =>
      match digits_val 0 i with
      | Some n => Ok (Z2float n)
      | None => Raise ValueError
      end
  | [i; f] =>
      match digits_val 0 (i ++ f)%string with
      | Some n => Ok (Z2float n / Z2float (10 ^ Z.of_nat (String.length f)))%float
      | None => Raise ValueError
      end
  | _ => Raise ValueError
  end.

(** ** [datetime.timedelta] *)

(** A normalised [timedelta]: [0 <= seconds < 86400],
    [0 <= microseconds < 10^6]. *)
Record timedelta : Type := mk_timedelta {
  td_days : Z;
  td_seconds : Z;
  td_microseconds : Z
}.

Definition us_per_minute : Z := 60000000.

(** [microseconds_to_delta]: split by floor division and check the range of
    the day count. *)
Definition microseconds_to_delta (us : Z) : result timedelta :=
  let s := (us / 1000000)%Z in
  let d := (s / 86400)%Z in
  if (999999999 <? Z.abs d)%Z then Raise OverflowError
  else Ok (mk_timedelta d (s mod 86400) (us mod 1000000)).

(** The constructor's last step: the float left over below one microsecond
    ([-1 < leftover < 1]) is rounded to the nearest integer, a tie going to
    the side that makes the total [x] even. *)
Definition round_leftover (x : Z) (leftover : float) : Z :=
  let a := PrimFloat.abs leftover in
  let one := if (leftover <? 0)%float then (-1)%Z else 1%Z in
  if (a <? 0.5)%float then 0%Z
  else if (a =? 0.5)%float then (if Z.odd x then one else 0%Z)
  else one.

(** [timedelta(minutes=val)] for a float [val]: the integer part is scaled
    exactly, the fractional part in float arithmetic. *)
Definition timedelta_minutes (val : float) : result timedelta :=
  ip <- PyLong_FromDouble val ;;
  let sum := (ip * us_per_minute)%Z in
  let fracpart := modf val ip in
  if (fracpart =? 0)%float then microseconds_to_delta sum
  else
    let dnum := (Z2float us_per_minute * fracpart)%float in
    ip2 <- PyLong_FromDouble dnum ;;
    let y := (sum + ip2)%Z in
    microseconds_to_delta (y + round_leftover y (modf dnum ip2))%Z.

(** [str(delta)]: [[D day[s], ]H:MM:SS[.UUUUUU]]. *)
Definition timedelta_str (d : timedelta) : string :=
  let minutes := (td_seconds d / 60)%Z in
  let clock :=
    (str_of_Z (minutes / 60) ++ ":" ++ fmt_0d 2 (minutes mod 60)
       ++ ":" ++ fmt_0d 2 (td_seconds d mod 60))%string in
  let clock :=
    if (td_microseconds d =? 0)%Z then clock
    else (clock ++ "." ++ fmt_0d 6 (td_microseconds d))%string in
  if (td_days d =? 0)%Z then clock
  else (str_of_Z (td_days d) ++ " day"
          ++ (if (Z.abs (td_days d) =? 1)%Z then "" else "s")
          ++ ", " ++ clock)%string.

(** ** Pace and speed conversions ([tcxaet.py], lines 42-103) *)

Set Warnings "-inexact-float".

Definition METERS2MILES : float := 1609.34.
Definition MIN2SECS : Z := 60.

(** [mil_min_val_to_mil_min_string]: the minutes field of [str(delta)],
    a colon, and the rounded seconds field. *)
Definition mil_min_val_to_mil_min_string (val : float) : result string :=
  if (val =? 0)%float then Ok "00:00"%string
  else
    delta <- timedelta_minutes val ;;
    let l := split_on ":"%char (timedelta_str delta) in
    mm <- nth_from_end 2 l ;;
    ss <- nth_from_end 1 l ;;
    secs <- float_of_decimal ss ;;
    r <- py_round secs ;;
    Ok (mm ++ ":" ++ zfill 2 (str_of_Z r))%string.

(** [meter_sec_2_min_miles]: the division is guarded by the zero test, so
    it raises for no operand, Python float or NumPy scalar. *)
Definition meter_sec_2_min_miles (n : float) : float :=
  let miles_a_minute := (n / METERS2MILES * 60)%float in
  if (miles_a_minute =? 0)%float then 0%float
  else (1 / miles_a_minute)%float.

(** [min_miles2meter_sec]: its argument is [args.treadmill], a Python
    float, so the unguarded division is a Python one. *)
Definition min_miles2meter_sec (n : float) : result float :=
  let secs_per_meter := (n * 60 / METERS2MILES)%float in
  py_truediv 1 secs_per_meter.

Definition pace_of_speed (speed : float) : result string :=
  mil_min_val_to_mil_min_string (meter_sec_2_min_miles speed).

(** ** Instants, time zones and aware datetimes *)

(** A [pytz] tzinfo instance: pytz keeps one instance per transition of a
    zone (offset, DST shift, abbreviation), so object identity of two
    instances of one zone is equality of these fields. *)
Record tzinfo : Type := mk_tzinfo {
  utcoffset : Z;        (* microseconds east of UTC *)
  tz_dst : Z;
  tzname : string
}.

Definition tzinfo_is (a b : tzinfo) : bool :=
  (utcoffset a =? utcoffset b)%Z && (tz_dst a =? tz_dst b)%Z
  && String.eqb (tzname a) (tzname b).

(** A zone gives the tzinfo in force at a UTC instant (microseconds). *)
Definition zone : Type := Z -> tzinfo.

(** An aware [datetime]: local wall-clock microseconds and a tzinfo. *)
Record aware_datetime : Type := mk_aware {
  wall : Z;
  dt_tzinfo : tzinfo
}.

(** [pytz.utc.localize(dt).astimezone(z)]. *)
Definition astimezone (z : zone) (utc_us : Z) : aware_datetime :=
  mk_aware (utc_us + utcoffset (z utc_us))%Z (z utc_us).

(** [a - b] on aware datetimes: the wall clocks are subtracted, and the
    offsets are taken into account only when the tzinfo objects differ. *)
Definition datetime_sub (a b : aware_datetime) : Z :=
  if tzinfo_is (dt_tzinfo a) (dt_tzinfo b) then (wall a - wall b)%Z
  else ((wall a - wall b) - (utcoffset (dt_tzinfo a) - utcoffset (dt_tzinfo b)))%Z.

(** A lap's begin or end time as the row holds it. *)
Inductive timeval : Type :=
| Datetime64 (ns : Z)                    (* numpy.datetime64, UTC *)
| LocalDatetime (d : aware_datetime).

Inductive durval : Type :=
| Timedelta64 (ns : Z)                   (* numpy.timedelta64 *)
| PyTimedelta (us : Z).                  (* datetime.timedelta *)

(** The length of a duration in nanoseconds, whichever type holds it. *)
Definition dur_ns (d : durval) : Z :=
  match d with
  | Timedelta64 ns => ns
  | PyTimedelta us => (1000 * us)%Z
  end.

(** [datetime64_2_datetime]: [pd.Timestamp(x).to_pydatetime()] keeps the
    microseconds and discards the nanoseconds below them. *)
Definition datetime64_2_datetime (aNumpyDaytime64 : Z) : Z :=
  (aNumpyDaytime64 / 1000)%Z.

(** ** The trackpoint frame *)

(** One row of [pd.DataFrame({'Bpm': .., 'Distance': ..}, index=Time)]. *)
Record trackpoint : Type := mk_trackpoint {
  tp_Time : Z;          (* index label, nanoseconds *)
  tp_Bpm : Z;
  tp_Distance : Z
}.

Definition DataFrame : Type := list trackpoint.

Fixpoint zip_trackpoints (Time Bpm Distance : list Z) : DataFrame :=
  match Time, Bpm, Distance with
  | t :: Time', b :: Bpm', d :: Distance' =>
      mk_trackpoint t b d :: zip_trackpoints Time' Bpm' Distance'
  | _, _, _ => []
  end.

(** A column given as a list, fitted to an index of [n] labels: a list
    of one element is repeated [n] times, and any other list whose length
    is not [n] is refused ([_maybe_repeat] and [require_length_match]). *)
Definition fit_column (n : nat) (column : list Z) : result (list Z) :=
  if (List.length column =? n)%nat then Ok column
  else match column with
       | [x] => Ok (repeat x n)
       | _ => Raise ValueError
       end.

(** [pd.DataFrame({'Bpm': Bpm, 'Distance': Distance}, index=Time)]. *)
Definition DataFrame_new (Bpm Distance Time : list Z) : result DataFrame :=
  Bpm <- fit_column (List.length Time) Bpm ;;
  Distance <- fit_column (List.length Time) Distance ;;
  Ok (zip_trackpoints Time Bpm Distance).

Definition frame_index (df : DataFrame) : list Z := map tp_Time df.
Definition frame_Bpm (df : DataFrame) : list Z := map tp_Bpm df.
Definition frame_Distance (df : DataFrame) : list Z := map tp_Distance df.

(** [df.size]: the number of cells, rows times the two columns. *)
Definition frame_size (df : DataFrame) : Z := (Z.of_nat (List.length df) * 2)%Z.

(** [x[0]] and [x[-1]]. *)
Definition first_item {A : Type} (l : list A) : result A :=
  match l with
  | a :: _ => Ok a
  | [] => Raise IndexError
  end.

Definition last_item {A : Type} (l : list A) : result A := nth_from_end 1 l.

Fixpoint list_min (l : list Z) : option Z :=
  match l with
  | [] => None
  | x :: l' => match list_min l' with
               | None => Some x
               | Some m => Some (Z.min x m)
               end
  end.

Fixpoint list_max (l : list Z) : option Z :=
  match l with
  | [] => None
  | x :: l' => match list_max l' with
               | None => Some x
               | Some m => Some (Z.max x m)
               end
  end.

Definition list_sum (l : list Z) : Z := fold_right Z.add 0%Z l.

(** [Series.mean()] of an integer column: a NumPy float; [nan] when the
    column is empty. *)
Definition series_mean (l : list Z) : float :=
  np_truediv (Z2float (list_sum l)) (Z2float (Z.of_nat (List.length l))).

(** [s.max() - s.min()]: a NumPy integer, or [nan] when [s] is empty. *)
Definition series_range (l : list Z) : option Z :=
  match list_max l, list_min l with
  | Some mx, Some mn => Some (mx - mn)%Z
  | _, _ => None
  end.

Definition range_float (r : option Z) : float :=
  match r with
  | Some d => Z2float d
  | None => nan
  end.

Fixpoint is_monotonic_increasing (l : list Z) : bool :=
  match l with
  | [] => true
  | x :: l' => match l' with
               | [] => true
               | y :: _ => (x <=? y)%Z && is_monotonic_increasing l'
               end
  end.

Fixpoint is_monotonic_decreasing (l : list Z) : bool :=
  match l with
  | [] => true
  | x :: l' => match l' with
               | [] => true
               | y :: _ => (y <=? x)%Z && is_monotonic_decreasing l'
               end
  end.

(** The rows up to the last label [<= stop] of an ascending index: the
    position [searchsorted(stop, side='right')]. *)
Fixpoint rows_upto (stop : Z) (df : DataFrame) : DataFrame :=
  match df with
  | [] => []
  | p :: df' => if (tp_Time p <=? stop)%Z then p :: rows_upto stop df' else []
  end.

(** The rows from the first label [>= start] of an ascending index: the
    position [searchsorted(start, side='left')]. *)
Fixpoint rows_from (start : Z) (df : DataFrame) : DataFrame :=
  match df with
  | [] => []
  | p :: df' => if (tp_Time p <? start)%Z then rows_from start df' else df
  end.

(** The rows from the first label [<= stop] of a descending index on:
    the left bound of [stop] there. *)
Fixpoint rows_downfrom (stop : Z) (df : DataFrame) : DataFrame :=
  match df with
  | [] => []
  | p :: df' => if (stop <? tp_Time p)%Z then rows_downfrom stop df' else df
  end.

(** [df.truncate(after=stop)].  pandas raises [ValueError] unless the
    index is sorted, one way or the other.  On an ascending index the
    result is [df.loc[:stop]]; on a descending one (pandas 1.1 and later)
    the two bounds change places and the result is [df.loc[stop:]]: in
    both cases the rows whose label is at most [stop]. *)
Definition truncate_after (stop : Z) (df : DataFrame) : result DataFrame :=
  if is_monotonic_increasing (frame_index df) then Ok (rows_upto stop df)
  else if is_monotonic_decreasing (frame_index df) then Ok (rows_downfrom stop df)
  else Raise ValueError.

(** [df[start:stop]] on an ascending index: label slicing, both ends
    included. *)
Definition slice_rows (start stop : Z) (df : DataFrame) : DataFrame :=
  rows_upto stop (rows_from start df).

(** ** Laps, rows and the command line *)

(** What the XPath queries of [parse_tcx_lap] find under one [Lap]
    element, in document order, each text node already read as a number
    ([float(i)], [int(str(i))], [pd.to_datetime(str(i))]). *)
Record RawLap : Type := mk_RawLap {
  xp_LongitudeDegrees : list float;
  xp_LatitudeDegrees : list float;
  xp_TotalTimeSeconds : list float;
  xp_DistanceMeters : list float;         (* every DistanceMeters node *)
  xp_HeartRateBpm : list Z;
  xp_TrackpointDistance : list float;     (* Track/Trackpoint/DistanceMeters *)
  xp_Time : list Z                        (* nanoseconds, UTC *)
}.

(** The dictionary [lap_data]. *)
Record LapData : Type := mk_LapData {
  Lap_coords : option (float * float);    (* [None] is the empty list *)
  Filename : string;
  TotalTimeSeconds : Z;
  DistanceMeters : list float;
  Trackpoints_series : DataFrame
}.

(** The parsed command line, [args]. *)
Record Args : Type := mk_Args {
  details : bool;
  columns : bool;
  local_time : bool;
  treadmill : option float
}.

(** The test [if not args.treadmill] fails: a pace was given and is a
    non-zero float. *)
Definition treadmill_active (args : Args) : bool :=
  match treadmill args with
  | Some p => float_truthy p
  | None => false
  end.

Definition treadmill_pace (args : Args) : float :=
  match treadmill args with
  | Some p => p
  | None => 0%float
  end.

(** A value stored in [lap_row]. *)
Inductive cell : Type :=
| CStr (s : string)
| CInt (z : Z)
| CFloat (x : float)
| CTime (t : timeval)
| CDur (d : durval)
| CTimestamp (t : option Z)               (* [None] is NaT *)
| CFrame (df : DataFrame).

(** [lap_row]: a dictionary, in insertion order. *)
Definition row : Type := list (string * cell).

Fixpoint row_set (k : string) (v : cell) (r : row) : row :=
  match r with
  | [] => [(k, v)]
  | (k', v') :: r' =>
      if String.eqb k k' then (k, v) :: r' else (k', v') :: row_set k v r'
  end.

Fixpoint row_get (k : string) (r : row) : option cell :=
  match r with
  | [] => None
  | (k', v') :: r' => if String.eqb k k' then Some v' else row_get k r'
  end.

Definition row_keys (r : row) : list string := map fst r.

(** The body of a [try] block that fills a dictionary: the dictionary is
    threaded through, and survives an exception as it then stands. *)
Definition body (A : Type) : Type := row -> row * result A.

Definition bbind {A B : Type} (m : body A) (k : A -> body B) : body B :=
  fun r => match m r with
           | (r', Ok a) => k a r'
           | (r', Raise e) => (r', Raise e)
           end.

Definition bret {A : Type} (a : A) : body A := fun r => (r, Ok a).

Definition call {A : Type} (x : result A) : body A := fun r => (r, x).

Definition assign (k : string) (v : cell) : body unit :=
  fun r => (row_set k v r, Ok tt).

Notation "x <~ m ;; k" := (bbind m (fun x => k))
  (at level 61, m at next level, right associativity).
Notation "m ;;; k" := (bbind m (fun _ => k))
  (at level 61, right associativity).

Definition no_coords_msg : string :=
  "Lap description has no coordinates, and it may be an indoor activity. Cannot determine time zone and will use UTC time instead.".

Definition malformed_msg : string :=
  "There is some seriously wrong with the TCX file: the Trackpoints do not contain homogenous data".

Definition zero_division_msg : string := "float division by zero".

Definition skip_msg (i : nat) : string :=
  ("Lap " ++ str_of_Z (Z.of_nat i) ++ " has 0 distance and/or 0 time. Skipping ")%string.

Fixpoint map_result {A B : Type} (f : A -> result B) (l : list A) : result (list B) :=
  match l with
  | [] => Ok []
  | a :: l' => b <- f a ;; bs <- map_result f l' ;; Ok (b :: bs)
  end.

(** The columns [csv_output] writes when [--details] is off. *)
Definition summary_columns : list string :=
  ["Filename"; "Beginning time"; "End time"; "Duration";
   "1st/2nd half drift"; "Avg. BPM"; "1st half avg. BPM";
   "2nd half avg. BPM"; "1st/2nd hald BPM-only drift"]%string.

(** What [to_csv] writes, field by field, before the fields are turned
    into text: the header when there is one, and one record per row,
    the row's index label first. *)
Record csv_table : Type := mk_csv {
  csv_header : option (list string);
  csv_records : list (list (option cell))
}.

Definition add_new_keys (seen : list string) (r : row) : list string :=
  fold_left (fun acc k => if existsb (String.eqb k) acc then acc else acc ++ [k])
            (row_keys r) seen.

(** The columns of [pd.DataFrame(all_laps_data)]: the keys of the rows in
    the order they first appear. *)
Definition report_columns (report : list row) : list string :=
  fold_left add_new_keys report [].

Fixpoint csv_records_from (i : Z) (cols : list string) (report : list row)
  : list (list (option cell)) :=
  match report with
  | [] => []
  | r :: report' =>
      (Some (CInt i) :: map (fun k => row_get k r) cols)
        :: csv_records_from (i + 1) cols report'
  end.

(** [report.to_csv(columns=.., header=.., index_label=..)]: a column asked
    for and absent from the frame is a [KeyError]. *)
Definition to_csv (report : list row) (cols : option (list string))
           (header : bool) (index_label : string) : result csv_table :=
  let present := report_columns report in
  cols <- match cols with
          | None => Ok present
          | Some c =>
              if forallb (fun k => existsb (String.eqb k) present) c
              then Ok c else Raise KeyError
          end ;;
  Ok (mk_csv (if header then Some (index_label :: cols) else None)
             (csv_records_from 0 cols report)).

(** ** The pipeline *)

Section Pipeline.

(** The collaborators of the script. *)

(** [open] and [ET.parse] and the [Lap] elements of the document, in
    document order, or the exception one of them raises: an [OSError] of
    [open] when the file cannot be opened for reading and writing, the
    [XMLSyntaxError] of [ET.parse] when it is not a well-formed
    document. *)
Variable tcx_file_laps : string -> result (list RawLap).

(** [ntpath.basename]. *)
Variable basename : string -> string.

(** [TimezoneFinder().timezone_at(lng=.., lat=..)]: a zone name, or [None]
    when no zone covers the point. *)
Variable timezone_at : float -> float -> option string.

(** [pytz.timezone]: [None] when it raises [UnknownTimeZoneError]. *)
Variable pytz_timezone : string -> option zone.

(** [UTC_datetime2local], on the microseconds of a naive UTC datetime. *)
Definition UTC_datetime2local (datetime : Z) (coords : float * float)
  : result aware_datetime :=
  match timezone_at (fst coords) (snd coords) with
  | None => Raise UnknownTimeZoneError
  | Some name =>
      match pytz_timezone name with
      | None => Raise UnknownTimeZoneError
      | Some z => Ok (astimezone z datetime)
      end
  end.

(** [read_tcx_files]. *)
Fixpoint read_tcx_files_from (filename_list : list string)
         (all_laps : list (string * RawLap)) : result (list (string * RawLap)) :=
  match filename_list with
  | [] => Ok all_laps
  | filename :: rest =>
      match tcx_file_laps filename with
      | Raise e => Raise e
      | Ok file_laps =>
          let lap_file := basename filename in
          read_tcx_files_from rest
            (all_laps ++ map (fun lap => (lap_file, lap)) file_laps)
      end
  end.

Definition read_tcx_files (filename_list : list string)
  : result (list (string * RawLap)) :=
  read_tcx_files_from filename_list [].

(** The coordinates of the first trackpoint that has some; an
    [IndexError] from either query leaves the empty list. *)
Definition first_coords (lap : RawLap) : option (float * float) :=
  match xp_LongitudeDegrees lap, xp_LatitudeDegrees lap with
  | lng :: _, lat :: _ => Some (lng, lat)
  | _, _ => None
  end.

(** One turn of the loop of [parse_tcx_lap]: what it prints on the error
    stream and the dictionary it builds, or the exception it raises. *)
Definition parse_one_tcx_lap (filename : string) (lap : RawLap)
  : list string * result LapData :=
  let coords := first_coords lap in
  ((match coords with
    | None => [no_coords_msg]
    | Some _ => []
    end),
   (total <- (t <- first_item (xp_TotalTimeSeconds lap) ;; PyLong_FromDouble t) ;;
    let Bpm := xp_HeartRateBpm lap in
    Distance <- map_result PyLong_FromDouble (xp_TrackpointDistance lap) ;;
    let Time := xp_Time lap in
    if negb (List.length Bpm =? List.length Distance)%nat
       && negb (List.length Distance =? List.length Time)%nat
    then Raise (Exception malformed_msg)
    else
      series <- DataFrame_new Bpm Distance Time ;;
      Ok (mk_LapData coords filename total (tl (xp_DistanceMeters lap)) series))).

(** [parse_tcx_lap]: no exception is handled, so the first lap that raises
    ends the call. *)
Fixpoint parse_tcx_lap_from (file_laps : list (string * RawLap))
         (laps : list LapData) : list string * result (list LapData) :=
  match file_laps with
  | [] => ([], Ok laps)
  | (filename, lap) :: rest =>
      match parse_one_tcx_lap filename lap with
      | (err, Raise e) => (err, Raise e)
      | (err, Ok lap_data) =>
          let (err', r) := parse_tcx_lap_from rest (laps ++ [lap_data]) in
          (err ++ err', r)
      end
  end.

Definition parse_tcx_lap (file_laps : list (string * RawLap))
  : list string * result (list LapData) :=
  parse_tcx_lap_from file_laps [].

(** [get_lap_times_and_duration]. *)
Definition get_lap_times_and_duration (args : Args) (lap_data : LapData)
  : result (timeval * timeval * durval) :=
  beginning_time <- first_item (frame_index (Trackpoints_series lap_data)) ;;
  end_time <- last_item (frame_index (Trackpoints_series lap_data)) ;;
  match Lap_coords lap_data, local_time args with
  | Some coords, true =>
      let beginning_time := datetime64_2_datetime beginning_time in
      let end_time := datetime64_2_datetime end_time in
      beginning_time <- UTC_datetime2local beginning_time coords ;;
      end_time <- UTC_datetime2local end_time coords ;;
      Ok (LocalDatetime beginning_time, LocalDatetime end_time,
          PyTimedelta (datetime_sub end_time beginning_time))
  | _, _ =>
      Ok (Datetime64 beginning_time, Datetime64 end_time,
          Timedelta64 (end_time - beginning_time))
  end.

(** [lap_halftime_value]: the division of the time span halves its
    nanoseconds and keeps whole ones.  [None] is NaT, the minimum of an
    empty index. *)
Definition lap_halftime_value (lap : LapData) : option Z :=
  let index := frame_index (Trackpoints_series lap) in
  match list_min index, list_max index with
  | Some mn, Some mx => Some (mn + (mx - mn) / 2)%Z
  | _, _ => None
  end.

(** The speed written at lines 194-197, 206-209 and 218-221. *)
Definition lap_speed (args : Args) (measured : float) : result float :=
  if negb (treadmill_active args) then Ok measured
  else min_miles2meter_sec (treadmill_pace args).

Definition range_cell (r : option Z) : cell :=
  match r with
  | Some d => CInt d
  | None => CFloat nan
  end.

(** [lap['Trackpoints_series']['Distance'][-1] - float(..['Distance'][0])]:
    a NumPy integer minus a Python float, a NumPy float. *)
Definition lap_total_distance (lap : LapData) : result float :=
  d_last <- last_item (frame_Distance (Trackpoints_series lap)) ;;
  d_first <- first_item (frame_Distance (Trackpoints_series lap)) ;;
  Ok (Z2float d_last - Z2float d_first)%float.

(** Line 204: [lap['Trackpoints_series'].truncate(after=Halftime)].  A
    frame that reaches this line is not empty (line 184 raised otherwise),
    so the NaT branch is never taken. *)
Definition lap_first_half (lap : LapData) : result DataFrame :=
  match lap_halftime_value lap with
  | Some h => truncate_after h (Trackpoints_series lap)
  | None => Raise ValueError
  end.

(** Line 216: [lap['Trackpoints_series'][halftime : index.max()]].  The
    statement is reached when line 204 has not raised, that is with an
    index that is sorted.  On a descending index that is not constant the
    left bound of the half time lies at or after the right bound of the
    maximum, and the slice is empty. *)
Definition lap_second_half (lap : LapData) : result DataFrame :=
  match lap_halftime_value lap, list_max (frame_index (Trackpoints_series lap)) with
  | Some h, Some mx =>
      if is_monotonic_increasing (frame_index (Trackpoints_series lap))
      then Ok (slice_rows h mx (Trackpoints_series lap))
      else Ok []
  | _, _ => Raise ValueError
  end.

(** The [try] block of [parse_laps], lines 181-228. *)
Definition lap_row_body (args : Args) (lap : LapData) : body unit :=
  let series := Trackpoints_series lap in
  assign "Filename" (CStr (Filename lap)) ;;;
  t <~ call (get_lap_times_and_duration args lap) ;;
  assign "Beginning time" (CTime (fst (fst t))) ;;;
  t <~ call (get_lap_times_and_duration args lap) ;;
  assign "End time" (CTime (snd (fst t))) ;;;
  t <~ call (get_lap_times_and_duration args lap) ;;
  assign "Duration" (CDur (snd t)) ;;;
  Total_distance <~ call (lap_total_distance lap) ;;
  assign "Total distance" (CFloat Total_distance) ;;;
  assign "# Trackpoints" (CInt (frame_size series)) ;;;
  let Total_time := TotalTimeSeconds lap in
  assign "Total time" (CInt Total_time) ;;;
  assign "Avg. BPM" (CFloat (series_mean (frame_Bpm series))) ;;;
  Speed <~ call (lap_speed args (np_truediv Total_distance (Z2float Total_time))) ;;
  assign "Speed (m/s)" (CFloat Speed) ;;;
  Pace <~ call (pace_of_speed Speed) ;;
  assign "Pace (min:mi)" (CStr Pace) ;;;
  assign "Trackpoints" (CFrame series) ;;;
  let Halftime := lap_halftime_value lap in
  assign "Halftime" (CTimestamp Halftime) ;;;
  (* First half data *)
  first_half <~ call (lap_first_half lap) ;;
  let dist1 := series_range (frame_Distance first_half) in
  assign "1st half distance" (range_cell dist1) ;;;
  let half_time := (Z2float Total_time / 2)%float in
  Speed1 <~ call (lap_speed args (np_truediv (range_float dist1) half_time)) ;;
  assign "1st half speed (m/s)" (CFloat Speed1) ;;;
  Pace1 <~ call (pace_of_speed Speed1) ;;
  assign "1st half pace (min:mi)" (CStr Pace1) ;;;
  let Bpm1 := series_mean (frame_Bpm first_half) in
  assign "1st half avg. BPM" (CFloat Bpm1) ;;;
  let Ratio1 := np_truediv Speed1 Bpm1 in
  assign "1st half speed/avg. BPM ratio" (CFloat Ratio1) ;;;
  (* Second half data *)
  second_half <~ call (lap_second_half lap) ;;
  let dist2 := series_range (frame_Distance second_half) in
  assign "2nd half distance" (range_cell dist2) ;;;
  Speed2 <~ call (lap_speed args (np_truediv (range_float dist2) half_time)) ;;
  assign "2nd half speed (m/s)" (CFloat Speed2) ;;;
  Pace2 <~ call (pace_of_speed Speed2) ;;
  assign "2nd half pace (min:mi)" (CStr Pace2) ;;;
  let Bpm2 := series_mean (frame_Bpm second_half) in
  assign "2nd half avg. BPM" (CFloat Bpm2) ;;;
  let Ratio2 := np_truediv Speed2 Bpm2 in
  assign "2nd half speed/avg. BPM ratio" (CFloat Ratio2) ;;;
  (* 1st/2nd half cardiac drift *)
  assign "1st/2nd half drift" (CFloat (np_truediv (Ratio2 - Ratio1) Ratio1)) ;;;
  assign "1st/2nd hald BPM-only drift" (CFloat (np_truediv (Bpm2 - Bpm1) Bpm1)).

(** The row of a lap: the dictionary its [try] block leaves, whether the
    block ends or raises. *)
Definition lap_row (args : Args) (lap : LapData) : row :=
  fst (lap_row_body args lap []).

(** [parse_laps]: only [ZeroDivisionError] is handled; the row is appended
    after the [try] statement, complete or not.  The result is the list of
    rows the final [pd.DataFrame] is built from. *)
Fixpoint parse_laps_from (args : Args) (i : nat) (laps : list LapData)
         (all_laps_data : list row) : list string * result (list row) :=
  match laps with
  | [] => ([], Ok all_laps_data)
  | lap :: rest =>
      match lap_row_body args lap [] with
      | (lap_row, Ok _) =>
          parse_laps_from args (S i) rest (all_laps_data ++ [lap_row])
      | (lap_row, Raise e) =>
          if is_zero_division e then
            let (err, r) :=
              parse_laps_from args (S i) rest (all_laps_data ++ [lap_row]) in
            (zero_division_msg :: skip_msg i :: err, r)
          else ([], Raise e)
      end
  end.

Definition parse_laps (args : Args) (laps : list LapData)
  : list string * result (list row) :=
  parse_laps_from args 0 laps [].

(** [csv_output]. *)
Definition csv_output (args : Args) (laps_array : list row) : result csv_table :=
  let index_name := "lap"%string in
  let columns_to_write := if negb (details args) then Some summary_columns else None in
  if negb (columns args) then to_csv laps_array columns_to_write false ""
  else to_csv laps_array columns_to_write true index_name.

(** The main loop: what reaches the error stream and what is printed. *)
Definition main (args : Args) (file_list : list string)
  : list string * result csv_table :=
  match read_tcx_files file_list with
  | Raise e => ([], Raise e)
  | Ok file_laps =>
      match parse_tcx_lap file_laps with
      | (err, Raise e) => (err, Raise e)
      | (err, Ok laps) =>
          let (err', r) := parse_laps args laps in
          (err ++ err', parsed_array <- r ;; csv_output args parsed_array)
      end
  end.

End Pipeline.

(** ** Sample collaborators and laps *)

(** The last component of a path, split at [/] and [\]. *)
Fixpoint basename_from (s : string) (acc : string) : string :=
  match s with
  | EmptyString => acc
  | String c rest =>
      if Ascii.eqb c "/"%char || Ascii.eqb c "\"%char
      then basename_from rest EmptyString
      else basename_from rest (acc ++ String c EmptyString)%string
  end.

Definition sample_basename (path : string) : string :=
  basename_from path EmptyString.

Definition sec (n : Z) : Z := (n * 1000000000)%Z.
Definition hour_us : Z := 3600000000.

(** A zone with one transition: standard time, five hours west of UTC,
    before the instant [100 s]; summer time, four hours west, from it. *)
Definition EST : tzinfo := mk_tzinfo (-5 * hour_us) 0 "EST".
Definition EDT : tzinfo := mk_tzinfo (-4 * hour_us) hour_us "EDT".

Definition sample_zone : zone :=
  fun utc_us => if (utc_us <? 100 * 1000000)%Z then EST else EDT.

Definition sample_timezone_at (lng lat : float) : option string :=
  if (lng <? 0)%float then Some "America/New_York"%string else None.

Definition sample_pytz (name : string) : option zone :=
  if String.eqb name "America/New_York" then Some sample_zone else None.

(** Four trackpoints, ten seconds and ten metres apart, thirty seconds. *)
Definition steady_lap : RawLap :=
  mk_RawLap [] [] [30%float] [30; 0; 10; 20; 30]%float
            [100; 110; 110; 120]%Z [0; 10; 20; 30]%float
            [sec 0; sec 10; sec 20; sec 30].

(** The same lap recorded with a position near New York. *)
Definition outdoor_lap : RawLap :=
  mk_RawLap [-74]%float [40.5]%float [30%float] [30; 0; 10; 20; 30]%float
            [100; 110; 110; 120]%Z [0; 10; 20; 30]%float
            [sec 80; sec 90; sec 100; sec 110].

(** A lap that was closed at once: no time and no distance, two
    trackpoints. *)
Definition still_lap : RawLap :=
  mk_RawLap [] [] [0%float] [0; 0; 0]%float
            [100; 110]%Z [0; 0]%float [sec 0; sec 10].

(** One heart rate, two distances, three times. *)
Definition ragged_lap : RawLap :=
  mk_RawLap [] [] [30%float] [30; 0; 10]%float
            [100]%Z [0; 10]%float [sec 0; sec 10; sec 20].

(** A heart rate is missing from one trackpoint of three. *)
Definition short_bpm_lap : RawLap :=
  mk_RawLap [] [] [30%float] [30; 0; 10; 20]%float
            [100; 110]%Z [0; 10; 20]%float [sec 0; sec 10; sec 20].

(** 1610 m in ten minutes: a mile in 9 min 59.75 s. *)
Definition brisk_lap : RawLap :=
  mk_RawLap [] [] [600%float] [1610; 0; 1610]%float
            [140; 150]%Z [0; 1610]%float [sec 0; sec 600].

(** Timestamps with seven decimals of a second, as .NET writes them. *)
Definition fine_lap : RawLap :=
  mk_RawLap [-74]%float [40.5]%float [1%float] [3; 0; 3]%float
            [100; 110]%Z [0; 3]%float [500; sec 1]%Z.

Definition sample_files (filename : string) : result (list RawLap) :=
  if String.eqb filename "runs/b.tcx" then Ok [steady_lap; outdoor_lap]
  else if String.eqb filename "a.tcx" then Ok [brisk_lap]
  else if String.eqb filename "still.tcx" then Ok [still_lap; steady_lap]
  else if String.eqb filename "ragged.tcx" then Ok [ragged_lap; steady_lap]
  else if String.eqb filename "fine.tcx" then Ok [fine_lap]
  else if String.eqb filename "broken.tcx" then Raise XMLSyntaxError
  else Raise OSError.

Definition summary_args : Args := mk_Args false true true None.
Definition treadmill_args (p : float) : Args := mk_Args false true true (Some p).

Definition sample_main (args : Args) (file_list : list string) :=
  main sample_files sample_basename sample_timezone_at sample_pytz args file_list.

Definition sample_lap_data (filename : string) (lap : RawLap) : result LapData :=
  snd (parse_one_tcx_lap filename lap).

(** The dictionaries [parse_tcx_lap] builds for the sample laps. *)
Definition frame_of (l : list (Z * Z * Z)) : DataFrame :=
  map (fun x => mk_trackpoint (sec (fst (fst x))) (snd (fst x)) (snd x)) l.

Definition steady_data : LapData :=
  mk_LapData None "b.tcx" 30 [0; 10; 20; 30]%float
             (frame_of [(0, 100, 0); (10, 110, 10); (20, 110, 20); (30, 120, 30)]%Z).

Definition outdoor_data : LapData :=
  mk_LapData (Some (-74, 40.5)%float) "b.tcx" 30 [0; 10; 20; 30]%float
             (frame_of [(80, 100, 0); (90, 110, 10); (100, 110, 20); (110, 120, 30)]%Z).

Definition still_data : LapData :=
  mk_LapData None "still.tcx" 0 [0; 0]%float
             (frame_of [(0, 100, 0); (10, 110, 0)]%Z).

Definition brisk_data : LapData :=
  mk_LapData None "a.tcx" 600 [0; 1610]%float
             (frame_of [(0, 140, 0); (600, 150, 1610)]%Z).

Definition fine_data : LapData :=
  mk_LapData (Some (-74, 40.5)%float) "fine.tcx" 1 [0; 3]%float
             [mk_trackpoint 500 100 0; mk_trackpoint (sec 1) 110 3].

Definition sample_lap_row (args : Args) (lap : LapData) : row * result unit :=
  lap_row_body sample_timezone_at sample_pytz args lap [].

Definition sample_parse_laps (args : Args) (laps : list LapData) :=
  parse_laps sample_timezone_at sample_pytz args laps.

(** A pace so small that its conversion to seconds a metre underflows to
    zero: the smallest positive float. *)
Definition tiny_pace : float := 0x1p-1074%float.

(** ** What the rows are checked against *)

(** The three speed fields of a row. *)
Definition speed_keys : list string :=
  ["Speed (m/s)"; "1st half speed (m/s)"; "2nd half speed (m/s)"]%string.

Definition speed_keys_expected (c : float) : row :=
  map (fun k => (k, CFloat c)) speed_keys.

(** The whole-lap speed from the measured distance and the declared time. *)
Definition measured_speed_expected (lap : LapData) : row :=
  [("Speed (m/s)"%string,
    CFloat (np_truediv (match lap_total_distance lap with
                        | Ok d => d
                        | Raise _ => nan
                        end)
                       (Z2float (TotalTimeSeconds lap))))].

(** The four heart-rate fields of a row. *)
Definition bpm_keys : list string :=
  ["Avg. BPM"; "1st half avg. BPM"; "2nd half avg. BPM";
   "1st/2nd hald BPM-only drift"]%string.

(** The heart-rate fields as functions of the lap alone. *)
Definition bpm_expected (lap : LapData) : row :=
  let mean_of (half : result DataFrame) :=
    match half with
    | Ok h => series_mean (frame_Bpm h)
    | Raise _ => nan
    end in
  let Bpm1 := mean_of (lap_first_half lap) in
  let Bpm2 := mean_of (lap_second_half lap) in
  [("Avg. BPM", CFloat (series_mean (frame_Bpm (Trackpoints_series lap))));
   ("1st half avg. BPM", CFloat Bpm1);
   ("2nd half avg. BPM", CFloat Bpm2);
   ("1st/2nd hald BPM-only drift", CFloat (np_truediv (Bpm2 - Bpm1) Bpm1))]%string.

(** The laps of the files of the command line in the order they are met:
    file after file, and within a file in document order. *)
Definition encounter_order (basename : string -> string) (files : list string)
           (per_file : list (list RawLap)) : list (string * RawLap) :=
  List.concat (map (fun fl => map (fun lap => (basename (fst fl), lap)) (snd fl))
              (combine files per_file)).

(** The order of the summary columns as the specification lists them:
    file name, begin, end, duration, the heart-rate averages, and then the
    two drift ratios. *)
Definition documented_summary_columns : list string :=
  ["Filename"; "Beginning time"; "End time"; "Duration";
   "Avg. BPM"; "1st half avg. BPM"; "2nd half avg. BPM";
   "1st/2nd half drift"; "1st/2nd hald BPM-only drift"]%string.

(** The position of a column in a header. *)
Fixpoint column_position (k : string) (header : list string) : option nat :=
  match header with
  | [] => None
  | k' :: header' =>
      if String.eqb k k' then Some O
      else option_map S (column_position k header')
  end.

(** One column of a report, row by row; [None] where a row lacks the
    field. *)
Definition report_field (k : string) (report : result (list row))
  : result (list (option cell)) :=
  rows <- report ;; Ok (map (row_get k) rows).

(** A lap with a declared time of zero seconds and a measured distance. *)
Definition zero_time_data : LapData :=
  mk_LapData None "z.tcx" 0 [0; 10; 20; 30]%float
             (frame_of [(0, 100, 0); (10, 110, 10); (20, 110, 20); (30, 120, 30)]%Z).

(** ** What the loops are checked against *)

Section Expected.

Variable timezone_at : float -> float -> option string.
Variable pytz_timezone : string -> option zone.

(** The [try] statement of a lap lets nothing out: its block ends, or
    raises the one exception the handler takes. *)
Definition lap_handled (args : Args) (lap : LapData) : bool :=
  match snd (lap_row_body timezone_at pytz_timezone args lap []) with
  | Ok _ => true
  | Raise e => is_zero_division e
  end.

(** The block of a lap ends without an exception. *)
Definition lap_complete (args : Args) (lap : LapData) : bool :=
  match snd (lap_row_body timezone_at pytz_timezone args lap []) with
  | Ok _ => true
  | Raise _ => false
  end.

(** What the handler prints for the laps numbered from [i] on. *)
Fixpoint skip_messages (args : Args) (i : nat) (laps : list LapData) : list string :=
  match laps with
  | [] => []
  | lap :: rest =>
      (if lap_complete args lap then [] else [zero_division_msg; skip_msg i])
        ++ skip_messages args (S i) rest
  end.

End Expected.

(** The keys of a row whose block ran to its end, in the order the block
    stores them. *)
Definition row_columns : list string :=
  ["Filename"; "Beginning time"; "End time"; "Duration"; "Total distance";
   "# Trackpoints"; "Total time"; "Avg. BPM"; "Speed (m/s)"; "Pace (min:mi)";
   "Trackpoints"; "Halftime";
   "1st half distance"; "1st half speed (m/s)"; "1st half pace (min:mi)";
   "1st half avg. BPM"; "1st half speed/avg. BPM ratio";
   "2nd half distance"; "2nd half speed (m/s)"; "2nd half pace (min:mi)";
   "2nd half avg. BPM"; "2nd half speed/avg. BPM ratio";
   "1st/2nd half drift"; "1st/2nd hald BPM-only drift"]%string.

(** The numbers of fields a row can hold when its block raised: the
    fields stored before each of the calls that can raise. *)
Definition partial_row_sizes : list nat := [1; 4; 8; 9; 12; 13; 14; 17; 18; 19]%nat.

(** The number of fields of the longest row of a report. *)
Definition widest (report : list row) : nat :=
  fold_right Nat.max 0%nat (map (fun r : row => List.length r) report).

(** What [parse_tcx_lap] prints: a line for each lap without a
    position. *)
Definition coords_warnings (file_laps : list (string * RawLap)) : list string :=
  List.concat
    (map (fun fl : string * RawLap =>
            match first_coords (snd fl) with
            | Some _ => []
            | None => [no_coords_msg]
            end)
         file_laps).

(** The laps whose dictionary has an empty [Lap_coords]. *)
Definition without_coords (laps : list LapData) : list LapData :=
  filter (fun lap_data => match Lap_coords lap_data with
                          | Some _ => false
                          | None => true
                          end) laps.

(** The row labels of a report of [n] rows: pandas numbers them from 0. *)
Definition row_labels (n : nat) : list (option cell) :=
  map (fun k => Some (CInt (Z.of_nat k))) (seq 0 n).

(** A lap that was opened and closed at once, without a trackpoint. *)
Definition empty_lap : RawLap := mk_RawLap [] [] [5%float] [0%float] [] [] [].

(** One heart rate, three distances and three timestamps. *)
Definition one_rate_lap : RawLap :=
  mk_RawLap [] [] [20%float] [20; 0; 10; 20]%float
            [100]%Z [0; 10; 20]%float [sec 0; sec 10; sec 20].

Definition empty_data : LapData := mk_LapData None "empty.tcx" 5 [] [].

(** The steady lap at a position east of Greenwich, where the sample
    lookup knows no zone. *)
Definition offshore_data : LapData :=
  mk_LapData (Some (10, 40.5)%float) "b.tcx" 30 [0; 10; 20; 30]%float
             (frame_of [(0, 100, 0); (10, 110, 10); (20, 110, 20); (30, 120, 30)]%Z).

Definition details_args : Args := mk_Args true true true None.

(** The two fields of [str(delta)] that [mil_min_val_to_mil_min_string]
    reads: the minutes of the hour, and the seconds with their
    microseconds. *)
Definition minutes_field (d : timedelta) : string :=
  fmt_0d 2 ((td_seconds d / 60) mod 60).

Definition seconds_field (d : timedelta) : string :=
  if (td_microseconds d =? 0)%Z then fmt_0d 2 (td_seconds d mod 60)
  else (fmt_0d 2 (td_seconds d mod 60) ++ "." ++ fmt_0d 6 (td_microseconds d))%string.

(** What stands before the first colon of [str(delta)]: the days, when
    there are some, and the hours. *)
Definition hours_field (d : timedelta) : string :=
  let hours := str_of_Z (td_seconds d / 60 / 60) in
  if (td_days d =? 0)%Z then hours
  else (str_of_Z (td_days d) ++ " day"
          ++ (if (Z.abs (td_days d) =? 1)%Z then "" else "s")
          ++ ", " ++ hours)%string.

Fixpoint colon_free (s : string) : bool :=
  match s with
  | EmptyString => true
  | String c rest => negb (Ascii.eqb c ":"%char) && colon_free rest
  end.

(** One hour, forty-seven minutes and some seconds a mile. *)
Definition slow_pace : float := meter_sec_2_min_miles 0.25.

(** The records of a report, row by row: the position of the row,
    counted from 0, and then the field of each column, blank where the row
    has none. *)
Definition report_records (cols : list string) (report : list row)
  : list (list (option cell)) :=
  map (fun numbered : nat * row =>
         Some (CInt (Z.of_nat (fst numbered)))
           :: map (fun k => row_get k (snd numbered)) cols)
      (combine (seq 0 (List.length report)) report).

(** The columns of the report of the rows of some laps: the summary
    columns, or with [--details] the fields of the longest row. *)
Definition written_columns (args : Args) (report : list row) : list string :=
  if details args then firstn (widest report) row_columns else summary_columns.

(** * Properties *)

Unset Implicit Arguments.

(** ** Results and rows *)

Lemma rbind_Ok {A B : Type} (r : result A) (k : A -> result B) (b : B) :
  rbind r k = Ok b -> exists a, r = Ok a /\ k a = Ok b.
Proof.
  destruct r as [a | e]; simpl; intros H.
  - exists a. split; [reflexivity | exact H].
  - discriminate H.
Qed.

Lemma row_get_set_same (k : string) (v : cell) (r : row) :
  row_get k (row_set k v r) = Some v.
Proof.
  induction r as [| [k0 v0] r IH]; simpl.
  - now rewrite String.eqb_refl.
  - destruct (String.eqb k k0) eqn:E; simpl.
    + now rewrite String.eqb_refl.
    + now rewrite E.
Qed.

Lemma row_get_set_other (k k' : string) (v : cell) (r : row) :
  String.eqb k k' = false -> row_get k (row_set k' v r) = row_get k r.
Proof.
  intros Hk.
  induction r as [| [k0 v0] r IH]; simpl.
  - now rewrite Hk.
  - destruct (String.eqb k' k0) eqn:E; simpl.
    + apply String.eqb_eq in E. subst k0. now rewrite Hk.
    + destruct (String.eqb k k0); [reflexivity | exact IH].
Qed.

(** [r] holds no value that differs from the one [expected] lists for
    the same key. *)
Definition row_agrees (expected r : row) : Prop :=
  forall k e v, row_get k expected = Some e -> row_get k r = Some v -> v = e.

Lemma row_agrees_nil (expected : row) : row_agrees expected [].
Proof. intros k e v _ H. discriminate H. Qed.

Lemma row_agrees_set (expected : row) (k : string) (v : cell) (r : row) :
  (forall e, row_get k expected = Some e -> v = e) ->
  row_agrees expected r -> row_agrees expected (row_set k v r).
Proof.
  intros Hv Hr k0 e v0 He Hget.
  destruct (String.eqb k0 k) eqn:E.
  - apply String.eqb_eq in E. subst k0.
    rewrite row_get_set_same in Hget. injection Hget as <-. now apply Hv.
  - rewrite row_get_set_other in Hget by exact E. exact (Hr _ _ _ He Hget).
Qed.

(** ** Triples over the dictionary of a [try] block

    [triple P m Q]: from a dictionary that satisfies [P], the block [m]
    leaves one that satisfies [P], whether it raises or not, and a value it
    returns satisfies [Q]. *)

Definition triple {A : Type} (P : row -> Prop) (m : body A) (Q : A -> Prop) : Prop :=
  forall r, P r -> P (fst (m r)) /\ forall a, snd (m r) = Ok a -> Q a.

Lemma triple_bind {A B : Type} (P : row -> Prop) (m : body A) (k : A -> body B)
      (Q : A -> Prop) (R : B -> Prop) :
  triple P m Q -> (forall a, Q a -> triple P (k a) R) -> triple P (bbind m k) R.
Proof.
  intros Hm Hk r Hr. unfold bbind.
  destruct (Hm r Hr) as [HP HQ].
  destruct (m r) as [r' [a | e]]; simpl in *.
  - exact (Hk a (HQ a eq_refl) r' HP).
  - split; [exact HP | intros a H; discriminate H].
Qed.

Lemma triple_call {A : Type} (P : row -> Prop) (x : result A) :
  triple P (call x) (fun a => x = Ok a).
Proof. intros r Hr. split; [exact Hr | intros a H; exact H]. Qed.

Lemma triple_assign (P : row -> Prop) (k : string) (v : cell) :
  (forall r, P r -> P (row_set k v r)) -> triple P (assign k v) (fun _ => True).
Proof. intros H r Hr. split; [exact (H r Hr) | intros; exact I]. Qed.

Lemma triple_bind_call {A B : Type} (P : row -> Prop) (x : result A)
      (k : A -> body B) (R : B -> Prop) :
  (forall a, x = Ok a -> triple P (k a) R) -> triple P (bbind (call x) k) R.
Proof. intros H. eapply triple_bind; [apply triple_call | exact H]. Qed.

Lemma triple_bind_assign {B : Type} (P : row -> Prop) (key : string) (v : cell)
      (k : unit -> body B) (R : B -> Prop) :
  (forall r, P r -> P (row_set key v r)) -> triple P (k tt) R ->
  triple P (bbind (assign key v) k) R.
Proof.
  intros Hset Hk. eapply triple_bind; [apply triple_assign, Hset |].
  intros [] _. exact Hk.
Qed.

Lemma triple_run {A : Type} (P : row -> Prop) (m : body A) (Q : A -> Prop) :
  triple P m Q -> P [] -> P (fst (m [])).
Proof. intros H H0. exact (proj1 (H [] H0)). Qed.

(** One statement of the [try] block at a time: an assignment keeps the
    agreement when the value agrees, a call adds its equation. *)
Ltac body_set side :=
  intros ? ?; apply row_agrees_set;
  [ simpl; let e := fresh "e" in let He := fresh "He" in
    intros e He; first [ discriminate He | injection He as <-; side ]
  | assumption ].

Ltac body_step side :=
  first
    [ apply triple_bind_assign; [ body_set side | ]
    | apply triple_bind_call; intros ? ?
    | apply triple_assign; body_set side ].

Ltac body_walk side := unfold lap_row_body; cbv zeta; repeat body_step side.

(** ** The fields of one row *)

Lemma lap_speed_treadmill (args : Args) (p measured a : float) :
  treadmill args = Some p -> float_truthy p = true ->
  lap_speed args measured = Ok a -> a = (1 / (p * 60 / METERS2MILES))%float.
Proof.
  intros Ht Hp. unfold lap_speed, treadmill_active, treadmill_pace.
  rewrite Ht, Hp. simpl. unfold min_miles2meter_sec, py_truediv.
  destruct (_ =? 0)%float; intros H; [discriminate H | now injection H as <-].
Qed.

Lemma lap_speed_measured (args : Args) (measured a : float) :
  treadmill_active args = false -> lap_speed args measured = Ok a -> a = measured.
Proof.
  intros Ht. unfold lap_speed. rewrite Ht. simpl. intros H. now injection H as <-.
Qed.

Section RowFields.

Variable timezone_at : float -> float -> option string.
Variable pytz_timezone : string -> option zone.

Lemma body_treadmill_speeds (args : Args) (lap : LapData) (p : float) :
  treadmill args = Some p -> float_truthy p = true ->
  triple (row_agrees (speed_keys_expected (1 / (p * 60 / METERS2MILES))))
         (lap_row_body timezone_at pytz_timezone args lap) (fun _ => True).
Proof.
  intros Ht Hp.
  body_walk ltac:(f_equal; eapply lap_speed_treadmill; eassumption).
Qed.

Lemma body_measured_speed (args : Args) (lap : LapData) :
  treadmill_active args = false ->
  triple (row_agrees (measured_speed_expected lap))
         (lap_row_body timezone_at pytz_timezone args lap) (fun _ => True).
Proof.
  intros Ht.
  body_walk ltac:(idtac;
    match goal with
    | Hd : lap_total_distance _ = Ok _, Hs : lap_speed _ _ = Ok _ |- _ =>
        rewrite Hd; f_equal; eapply lap_speed_measured; [exact Ht | exact Hs]
    end).
Qed.

Lemma body_bpm_fields (args : Args) (lap : LapData) :
  triple (row_agrees (bpm_expected lap))
         (lap_row_body timezone_at pytz_timezone args lap) (fun _ => True).
Proof.
  body_walk ltac:(idtac;
    repeat match goal with
    | Hd : lap_first_half _ = Ok _ |- _ => rewrite Hd; clear Hd
    | Hd : lap_second_half _ = Ok _ |- _ => rewrite Hd; clear Hd
    end; reflexivity).
Qed.

End RowFields.

(** ** Frames: minimum, maximum and label slices *)

Lemma list_min_cons (x : Z) (l : list Z) : exists m, list_min (x :: l) = Some m.
Proof. simpl. destruct (list_min l); eauto. Qed.

Lemma list_max_cons (x : Z) (l : list Z) : exists m, list_max (x :: l) = Some m.
Proof. simpl. destruct (list_max l); eauto. Qed.

Lemma list_max_upper (l : list Z) (mx : Z) :
  list_max l = Some mx -> Forall (fun x => (x <= mx)%Z) l.
Proof.
  revert mx. induction l as [| x l IH]; intros mx H; [constructor |].
  simpl in H. destruct (list_max l) as [m |] eqn:E.
  - injection H as <-. constructor; [lia |].
    eapply Forall_impl; [| exact (IH m eq_refl)]. simpl. intros; lia.
  - injection H as <-. destruct l as [| z l].
    + constructor; [lia | constructor].
    + destruct (list_max_cons z l) as [m Hm]. rewrite Hm in E. discriminate E.
Qed.

Lemma monotonic_cons (x : Z) (l : list Z) :
  is_monotonic_increasing (x :: l) = true ->
  is_monotonic_increasing l = true /\ Forall (fun y => (x <= y)%Z) l.
Proof.
  revert x. induction l as [| y l IH]; intros x H.
  - split; [reflexivity | constructor].
  - change (((x <=? y)%Z && is_monotonic_increasing (y :: l)) = true) in H.
    apply andb_true_iff in H. destruct H as [Hxy Hl]. apply Z.leb_le in Hxy.
    split; [exact Hl |]. constructor; [exact Hxy |].
    destruct (IH y Hl) as [_ Hy].
    eapply Forall_impl; [| exact Hy]. simpl. intros; lia.
Qed.

Lemma filter_none {A : Type} (f : A -> bool) (l : list A) :
  Forall (fun a => f a = false) l -> filter f l = [].
Proof.
  induction 1 as [| a l Ha _ IH]; simpl; [reflexivity |]. now rewrite Ha.
Qed.

Lemma filter_all {A : Type} (f : A -> bool) (l : list A) :
  Forall (fun a => f a = true) l -> filter f l = l.
Proof.
  induction 1 as [| a l Ha _ IH]; simpl; [reflexivity |]. now rewrite Ha, IH.
Qed.

Lemma Forall_index (P : Z -> Prop) (df : DataFrame) :
  Forall P (frame_index df) -> Forall (fun p => P (tp_Time p)) df.
Proof.
  unfold frame_index. induction df as [| p df IH]; simpl; intros H; [constructor |].
  inversion H; subst. constructor; auto.
Qed.

(** On an ascending index the rows before the cut are the rows whose label
    is at most the cut. *)
Lemma rows_upto_filter (stop : Z) (df : DataFrame) :
  is_monotonic_increasing (frame_index df) = true ->
  rows_upto stop df = filter (fun p => (tp_Time p <=? stop)%Z) df.
Proof.
  induction df as [| p df IH]; intros Hs; [reflexivity |].
  destruct (monotonic_cons _ _ Hs) as [Hdf Hp]. simpl.
  destruct (tp_Time p <=? stop)%Z eqn:E.
  - now rewrite IH.
  - symmetry. apply filter_none. apply Z.leb_gt in E.
    apply Forall_index in Hp. eapply Forall_impl; [| exact Hp].
    simpl. intros q Hq. apply Z.leb_gt. lia.
Qed.

Lemma rows_from_filter (start : Z) (df : DataFrame) :
  is_monotonic_increasing (frame_index df) = true ->
  rows_from start df = filter (fun p => (start <=? tp_Time p)%Z) df.
Proof.
  induction df as [| p df IH]; intros Hs; [reflexivity |].
  destruct (monotonic_cons _ _ Hs) as [Hdf Hp]. simpl.
  destruct (tp_Time p <? start)%Z eqn:E.
  - apply Z.ltb_lt in E.
    replace (start <=? tp_Time p)%Z with false by (symmetry; apply Z.leb_gt; lia).
    now apply IH.
  - apply Z.ltb_ge in E.
    replace (start <=? tp_Time p)%Z with true by (symmetry; apply Z.leb_le; lia).
    f_equal. symmetry. apply filter_all.
    apply Forall_index in Hp. eapply Forall_impl; [| exact Hp].
    simpl. intros q Hq. apply Z.leb_le. lia.
Qed.

Lemma rows_upto_all (stop : Z) (df : DataFrame) :
  Forall (fun p => (tp_Time p <= stop)%Z) df -> rows_upto stop df = df.
Proof.
  induction 1 as [| p df Hp _ IH]; simpl; [reflexivity |].
  apply Z.leb_le in Hp. now rewrite Hp, IH.
Qed.

Lemma slice_rows_filter (start mx : Z) (df : DataFrame) :
  is_monotonic_increasing (frame_index df) = true ->
  list_max (frame_index df) = Some mx ->
  slice_rows start mx df = filter (fun p => (start <=? tp_Time p)%Z) df.
Proof.
  intros Hs Hmx. unfold slice_rows. rewrite (rows_from_filter _ _ Hs).
  apply rows_upto_all. apply list_max_upper in Hmx. apply Forall_index in Hmx.
  apply Forall_forall. intros p Hp. apply filter_In in Hp.
  rewrite Forall_forall in Hmx. now apply Hmx.
Qed.

Lemma halves_cover (h : Z) (df : DataFrame) :
  (List.length df <=
   List.length (filter (fun p => (tp_Time p <=? h)%Z) df)
   + List.length (filter (fun p => (h <=? tp_Time p)%Z) df))%nat.
Proof.
  induction df as [| p df IH]; simpl; [lia |].
  destruct (tp_Time p <=? h)%Z eqn:E1; destruct (h <=? tp_Time p)%Z eqn:E2;
    simpl; lia.
Qed.

(** C3.  For a lap whose trackpoints are in ascending time and not empty,
    with [halftime = min + (max - min) / 2] over the timestamps: the first
    half (line 204) is exactly the trackpoints with timestamp [<= halftime],
    the second half (line 216) exactly those with timestamp [>= halftime],
    and the two halves together count at least as many trackpoints as the
    lap. *)
Theorem C3_temporal_split (lap : LapData) :
  let series := Trackpoints_series lap in
  series <> [] ->
  is_monotonic_increasing (frame_index series) = true ->
  exists mn mx : Z,
    list_min (frame_index series) = Some mn /\
    list_max (frame_index series) = Some mx /\
    let halftime := (mn + (mx - mn) / 2)%Z in
    let first_half := filter (fun p => (tp_Time p <=? halftime)%Z) series in
    let second_half := filter (fun p => (halftime <=? tp_Time p)%Z) series in
    lap_halftime_value lap = Some halftime /\
    lap_first_half lap = Ok first_half /\
    lap_second_half lap = Ok second_half /\
    (List.length series <= List.length first_half + List.length second_half)%nat.
Proof.
  intros series Hne Hs.
  destruct series as [| p df] eqn:Es; [contradiction |].
  destruct (list_min_cons (tp_Time p) (frame_index df)) as [mn Hmn].
  destruct (list_max_cons (tp_Time p) (frame_index df)) as [mx Hmx].
  exists mn, mx. change (frame_index (p :: df)) with (tp_Time p :: frame_index df).
  split; [exact Hmn |]. split; [exact Hmx |]. cbv zeta.
  assert (Hh : lap_halftime_value lap = Some (mn + (mx - mn) / 2)%Z).
  { unfold lap_halftime_value. fold series. rewrite Es.
    change (frame_index (p :: df)) with (tp_Time p :: frame_index df).
    now rewrite Hmn, Hmx. }
  split; [exact Hh |]. split; [| split].
  - unfold lap_first_half, truncate_after. rewrite Hh. fold series. rewrite Es.
    rewrite Hs. now rewrite (rows_upto_filter _ _ Hs).
  - unfold lap_second_half. rewrite Hh. fold series. rewrite Es, Hs.
    change (frame_index (p :: df)) with (tp_Time p :: frame_index df).
    rewrite Hmx. now rewrite (slice_rows_filter _ _ _ Hs Hmx).
  - apply halves_cover.
Qed.

Lemma C3_temporal_split_witness :
  Trackpoints_series steady_data <> []
  /\ is_monotonic_increasing (frame_index (Trackpoints_series steady_data)) = true
  /\ lap_first_half steady_data
     = Ok (frame_of [(0, 100, 0); (10, 110, 10)]%Z)
  /\ lap_second_half steady_data
     = Ok (frame_of [(20, 110, 20); (30, 120, 30)]%Z).
Proof.
  assert (Hne : Trackpoints_series steady_data <> []) by discriminate.
  assert (Hs : is_monotonic_increasing
                 (frame_index (Trackpoints_series steady_data)) = true)
    by reflexivity.
  destruct (C3_temporal_split steady_data Hne Hs)
    as (mn & mx & Hmn & Hmx & _ & H1 & H2 & _).
  injection Hmn as <-. injection Hmx as <-.
  split; [exact Hne | split; [exact Hs | split; [exact H1 | exact H2]]].
Defined.

(** The same split on a lap whose middle trackpoint falls on the half
    time: it belongs to both halves. *)
Example halftime_sample_in_both_halves :
  let lap := mk_LapData None "x.tcx" 20 []
               (frame_of [(0, 100, 0); (10, 110, 10); (20, 120, 20)]%Z) in
  lap_halftime_value lap = Some (sec 10)
  /\ lap_first_half lap = Ok (frame_of [(0, 100, 0); (10, 110, 10)]%Z)
  /\ lap_second_half lap = Ok (frame_of [(10, 110, 10); (20, 120, 20)]%Z).
Proof. repeat split. Qed.

(** ** The report: one row per lap *)

Section Report.

Variable timezone_at : float -> float -> option string.
Variable pytz_timezone : string -> option zone.

(** A report holds one row per lap, in the order of the laps; the row of a
    lap is the dictionary its [try] block leaves. *)
Lemma parse_laps_from_rows (args : Args) (laps : list LapData) :
  forall (i : nat) (all_laps_data : list row) (err : list string) (rows : list row),
    parse_laps_from timezone_at pytz_timezone args i laps all_laps_data = (err, Ok rows) ->
    rows = all_laps_data ++ map (lap_row timezone_at pytz_timezone args) laps.
Proof.
  induction laps as [| lap rest IH]; intros i acc err rows H; simpl in H.
  - injection H as _ <-. now rewrite app_nil_r.
  - unfold lap_row at 1. simpl.
    destruct (lap_row_body timezone_at pytz_timezone args lap []) as [r [u | e]].
    + apply IH in H. rewrite H, <- app_assoc. reflexivity.
    + destruct (is_zero_division e); [| discriminate H].
      destruct (parse_laps_from timezone_at pytz_timezone args (S i) rest (acc ++ [r]))
        as [err' res] eqn:E.
      injection H as _ ->. apply IH in E. rewrite E, <- app_assoc. reflexivity.
Qed.

Lemma parse_laps_rows (args : Args) (laps : list LapData)
      (err : list string) (rows : list row) :
  parse_laps timezone_at pytz_timezone args laps = (err, Ok rows) ->
  rows = map (lap_row timezone_at pytz_timezone args) laps.
Proof. intros H. exact (parse_laps_from_rows _ _ _ _ _ _ H). Qed.

Lemma bpm_expected_get (lap : LapData) (k : string) :
  In k bpm_keys -> exists e, row_get k (bpm_expected lap) = Some e.
Proof.
  intros [<- | [<- | [<- | [<- | []]]]]; eexists; reflexivity.
Qed.

Lemma lap_row_bpm (args : Args) (lap : LapData) :
  row_agrees (bpm_expected lap) (lap_row timezone_at pytz_timezone args lap).
Proof.
  unfold lap_row. eapply triple_run; [apply body_bpm_fields | apply row_agrees_nil].
Qed.

End Report.

(** ** Division by zero (C2) *)

(** C2, at a lap of zero seconds and zero metres.  The whole-lap speed is
    [0.0 / 0], a NumPy division: [nan], and no [ZeroDivisionError].  The
    pace of [nan] makes [timedelta(minutes=nan)] raise [ValueError], which
    [parse_laps] does not handle: no row is appended, the laps after it are
    not processed, and the run ends without a report. *)
Theorem C2_zero_lap_aborts_run :
  sample_lap_data "still.tcx" still_lap = Ok still_data
  /\ TotalTimeSeconds still_data = 0%Z
  /\ lap_total_distance still_data = Ok 0%float
  /\ snd (sample_lap_row summary_args still_data) = Raise ValueError
  /\ row_get "Speed (m/s)" (fst (sample_lap_row summary_args still_data))
     = Some (CFloat nan)
  /\ sample_parse_laps summary_args [still_data; steady_data] = ([], Raise ValueError)
  /\ snd (sample_main summary_args ["still.tcx"%string]) = Raise ValueError.
Proof. repeat split; vm_compute; reflexivity. Qed.

(** With a declared time of zero and a measured distance, every division
    by zero yields [inf] or [nan]: nothing is raised, nothing is printed,
    and the row is complete. *)
Example zero_time_lap_is_not_skipped :
  let run := sample_parse_laps summary_args [zero_time_data] in
  fst run = []
  /\ report_field "Speed (m/s)" (snd run) = Ok [Some (CFloat infinity)]
  /\ report_field "Pace (min:mi)" (snd run) = Ok [Some (CStr "00:00")]
  /\ report_field "1st/2nd half drift" (snd run) = Ok [Some (CFloat nan)]
  /\ report_field "1st/2nd hald BPM-only drift" (snd run)
     = Ok [Some (CFloat (10 / 105))].
Proof. repeat split; vm_compute; reflexivity. Qed.

(** The handler itself: when a [ZeroDivisionError] is raised (here by
    [min_miles2meter_sec] on a pace that underflows), the two messages are
    printed, the row is appended as it stands, and the next lap is
    processed. *)
Example zero_division_is_caught_per_lap :
  let run := sample_parse_laps (treadmill_args tiny_pace) [steady_data; brisk_data] in
  fst run = [zero_division_msg; skip_msg 0; zero_division_msg; skip_msg 1]
  /\ report_field "Avg. BPM" (snd run) = Ok [Some (CFloat 110); Some (CFloat 145)]
  /\ report_field "Speed (m/s)" (snd run) = Ok [None; None].
Proof. repeat split; vm_compute; reflexivity. Qed.

(** ** The number of trackpoints (C8) *)

(** C8, at a lap of four trackpoints: the field holds [DataFrame.size],
    the number of cells of the two-column frame, eight. *)
Theorem C8_trackpoints_field_counts_cells :
  List.length (Trackpoints_series steady_data) = 4%nat
  /\ snd (sample_lap_row summary_args steady_data) = Ok tt
  /\ row_get "# Trackpoints" (fst (sample_lap_row summary_args steady_data))
     = Some (CInt 8).
Proof. repeat split; vm_compute; reflexivity. Qed.

(** On every lap the field, when a row holds it, is twice the number of
    trackpoints. *)
Lemma trackpoints_field_is_twice_the_count
      (timezone_at : float -> float -> option string)
      (pytz_timezone : string -> option zone) (args : Args) (lap : LapData) (v : cell) :
  row_get "# Trackpoints" (fst (lap_row_body timezone_at pytz_timezone args lap []))
  = Some v ->
  v = CInt (Z.of_nat (List.length (Trackpoints_series lap)) * 2).
Proof.
  intros Hget.
  assert (H : row_agrees
                [("# Trackpoints"%string,
                  CInt (Z.of_nat (List.length (Trackpoints_series lap)) * 2))]
                (fst (lap_row_body timezone_at pytz_timezone args lap []))).
  { eapply triple_run; [| apply row_agrees_nil]. body_walk ltac:(reflexivity). }
  exact (H "# Trackpoints"%string _ v eq_refl Hget).
Qed.

(** ** Pace strings (C9) *)

(** C9, at 1610 m in 600 s: a mile takes 9 min 59.75 s, the seconds are
    rounded to 60 and nothing is carried into the minutes. *)
Theorem C9_pace_seconds_reach_60 :
  meter_sec_2_min_miles (1610 / 600) = 9.995900621118013%float
  /\ (delta <- timedelta_minutes (meter_sec_2_min_miles (1610 / 600)) ;;
      Ok (timedelta_str delta)) = Ok "0:09:59.754037"%string
  /\ pace_of_speed (1610 / 600) = Ok "09:60"%string
  /\ row_get "Pace (min:mi)" (fst (sample_lap_row summary_args brisk_data))
     = Some (CStr "09:60").
Proof. repeat split; vm_compute; reflexivity. Qed.

(** The part of C9 that holds: a speed of zero is the string [00:00]. *)
Example pace_of_zero_speed :
  pace_of_speed 0 = Ok "00:00"%string /\ pace_of_speed (-0) = Ok "00:00"%string.
Proof. split; reflexivity. Qed.

(** Slower than a mile an hour, the hours are dropped; one metre a second
    is 26 min 49 s a mile. *)
Example pace_samples :
  pace_of_speed 1 = Ok "26:49"%string
  /\ pace_of_speed 0.25 = Ok "47:17"%string.
Proof. split; vm_compute; reflexivity. Qed.

(** ** Local time (C5) *)

Lemma tzinfo_is_offset (a b : tzinfo) :
  tzinfo_is a b = true -> utcoffset a = utcoffset b.
Proof.
  unfold tzinfo_is. intros H.
  apply andb_true_iff in H. destruct H as [H _].
  apply andb_true_iff in H. destruct H as [H _].
  now apply Z.eqb_eq.
Qed.

(** The difference of two instants converted into one zone is the
    difference of the instants, whether the zone changes its offset in
    between or not. *)
Lemma datetime_sub_astimezone (z : zone) (b e : Z) :
  datetime_sub (astimezone z e) (astimezone z b) = (e - b)%Z.
Proof.
  unfold datetime_sub, astimezone. simpl.
  destruct (tzinfo_is (z e) (z b)) eqn:E.
  - apply tzinfo_is_offset in E. lia.
  - lia.
Qed.

Section LocalTime.

Variable timezone_at : float -> float -> option string.
Variable pytz_timezone : string -> option zone.

(** With coordinates and local time on, the duration is counted between
    the two instants cut to whole microseconds. *)
Lemma local_duration (args : Args) (lap : LapData) (coords : float * float)
      (name : string) (z : zone) (b e : Z) :
  Lap_coords lap = Some coords -> local_time args = true ->
  timezone_at (fst coords) (snd coords) = Some name ->
  pytz_timezone name = Some z ->
  first_item (frame_index (Trackpoints_series lap)) = Ok b ->
  last_item (frame_index (Trackpoints_series lap)) = Ok e ->
  get_lap_times_and_duration timezone_at pytz_timezone args lap
  = Ok (LocalDatetime (astimezone z (b / 1000)),
        LocalDatetime (astimezone z (e / 1000)),
        PyTimedelta (e / 1000 - b / 1000)).
Proof.
  intros Hc Hl Hn Hz Hb He.
  unfold get_lap_times_and_duration.
  rewrite Hb, He. simpl. rewrite Hc, Hl.
  unfold UTC_datetime2local, datetime64_2_datetime. rewrite Hn, Hz. simpl.
  now rewrite datetime_sub_astimezone.
Qed.

Lemma utc_duration (args : Args) (lap : LapData) (b e : Z) :
  local_time args = false ->
  first_item (frame_index (Trackpoints_series lap)) = Ok b ->
  last_item (frame_index (Trackpoints_series lap)) = Ok e ->
  get_lap_times_and_duration timezone_at pytz_timezone args lap
  = Ok (Datetime64 b, Datetime64 e, Timedelta64 (e - b)).
Proof.
  intros Hl Hb He.
  unfold get_lap_times_and_duration.
  rewrite Hb, He. simpl. rewrite Hl. now destruct (Lap_coords lap).
Qed.

End LocalTime.

(** C5 (amended).  For a lap with coordinates whose begin and end instants
    are whole microseconds, and any zone the lookup returns for them: the
    duration computed with the conversion to local time, the difference of
    the two local datetimes, is as long as the duration computed from the
    UTC instants without the conversion, [end - begin]. *)
Theorem C5_local_duration_is_utc_duration
        (timezone_at : float -> float -> option string)
        (pytz_timezone : string -> option zone)
        (details columns : bool) (treadmill : option float)
        (lap : LapData) (coords : float * float) (name : string) (z : zone)
        (b e : Z) :
  Lap_coords lap = Some coords ->
  timezone_at (fst coords) (snd coords) = Some name ->
  pytz_timezone name = Some z ->
  first_item (frame_index (Trackpoints_series lap)) = Ok b ->
  last_item (frame_index (Trackpoints_series lap)) = Ok e ->
  (b mod 1000 = 0)%Z -> (e mod 1000 = 0)%Z ->
  exists (begin_local end_local : aware_datetime) (local_duration utc_duration : durval),
    get_lap_times_and_duration timezone_at pytz_timezone
      (mk_Args details columns true treadmill) lap
    = Ok (LocalDatetime begin_local, LocalDatetime end_local, local_duration)
    /\ get_lap_times_and_duration timezone_at pytz_timezone
         (mk_Args details columns false treadmill) lap
       = Ok (Datetime64 b, Datetime64 e, utc_duration)
    /\ local_duration = PyTimedelta (datetime_sub end_local begin_local)
    /\ dur_ns local_duration = dur_ns utc_duration
    /\ dur_ns utc_duration = (e - b)%Z.
Proof.
  intros Hc Hn Hz Hb He Hbm Hem.
  eexists _, _, _, _.
  split; [eapply local_duration; eauto |].
  split; [eapply utc_duration; eauto |].
  split; [now rewrite datetime_sub_astimezone |].
  unfold dur_ns. split; [| reflexivity].
  pose proof (Z.div_mod b 1000). pose proof (Z.div_mod e 1000). lia.
Qed.

Lemma C5_local_duration_is_utc_duration_witness :
  (sec 80 mod 1000 = 0)%Z /\ (sec 110 mod 1000 = 0)%Z
  /\ exists (begin_local end_local : aware_datetime) (local_duration utc_duration : durval),
      get_lap_times_and_duration sample_timezone_at sample_pytz
        (mk_Args false true true None) outdoor_data
      = Ok (LocalDatetime begin_local, LocalDatetime end_local, local_duration)
      /\ get_lap_times_and_duration sample_timezone_at sample_pytz
           (mk_Args false true false None) outdoor_data
         = Ok (Datetime64 (sec 80), Datetime64 (sec 110), utc_duration)
      /\ local_duration = PyTimedelta (datetime_sub end_local begin_local)
      /\ dur_ns local_duration = dur_ns utc_duration
      /\ dur_ns utc_duration = (sec 110 - sec 80)%Z.
Proof.
  split; [reflexivity | split; [reflexivity |]].
  exact (C5_local_duration_is_utc_duration sample_timezone_at sample_pytz
           false true None outdoor_data (-74, 40.5)%float "America/New_York"
           sample_zone (sec 80) (sec 110)
           eq_refl eq_refl eq_refl eq_refl eq_refl eq_refl eq_refl).
Defined.

(** The sample lap begins in standard time and ends in summer time: the
    wall clocks are an hour and thirty seconds apart, the duration is
    thirty seconds. *)
Example duration_across_a_transition :
  get_lap_times_and_duration sample_timezone_at sample_pytz summary_args outdoor_data
  = Ok (LocalDatetime (mk_aware (80 * 1000000 - 5 * hour_us) EST),
        LocalDatetime (mk_aware (110 * 1000000 - 4 * hour_us) EDT),
        PyTimedelta (30 * 1000000)).
Proof. reflexivity. Qed.

(** A lap that begins 500 ns after a whole second and ends on the next
    whole second lasts 999999500 ns; with the conversion to local time its
    duration is a whole second. *)
Lemma C5_counterexample :
  Lap_coords fine_data = Some (-74, 40.5)%float
  /\ (t <- get_lap_times_and_duration sample_timezone_at sample_pytz
             (mk_Args false true true None) fine_data ;;
      Ok (dur_ns (snd t))) = Ok 1000000000%Z
  /\ (t <- get_lap_times_and_duration sample_timezone_at sample_pytz
             (mk_Args false true false None) fine_data ;;
      Ok (dur_ns (snd t))) = Ok 999999500%Z.
Proof. repeat split. Qed.

(** ** The summary columns (C6) *)

Lemma csv_records_from_length (cols : list string) (report : list row) (i : Z) :
  Forall (fun record => List.length record = S (List.length cols))
         (csv_records_from i cols report).
Proof.
  revert i. induction report as [| r report IH]; intros i; simpl; constructor.
  - simpl. now rewrite length_map.
  - apply IH.
Qed.

(** C6 (amended).  A report written in summary mode has, in every record,
    the row label and the nine summary fields in the order of the code:
    Filename, Beginning time, End time, Duration, 1st/2nd half drift,
    Avg. BPM, 1st half avg. BPM, 2nd half avg. BPM, 1st/2nd hald BPM-only
    drift.  It has a header exactly when [--columns] is set, and the header
    is the label [lap] and these nine names. *)
Theorem C6_summary_output (args : Args) (report : list row) (table : csv_table) :
  details args = false ->
  csv_output args report = Ok table ->
  csv_header table
  = (if columns args
     then Some ["lap"; "Filename"; "Beginning time"; "End time"; "Duration";
                "1st/2nd half drift"; "Avg. BPM"; "1st half avg. BPM";
                "2nd half avg. BPM"; "1st/2nd hald BPM-only drift"]%string
     else None)
  /\ csv_records table = csv_records_from 0 summary_columns report
  /\ Forall (fun record => List.length record = 10%nat) (csv_records table).
Proof.
  intros Hd H. unfold csv_output in H. rewrite Hd in H. simpl negb in H. cbv iota in H.
  unfold to_csv in H.
  destruct (forallb _ summary_columns); [| destruct (columns args); discriminate H].
  destruct (columns args); simpl in H; injection H as <-; simpl;
    (split; [reflexivity | split; [reflexivity |]]);
    apply (csv_records_from_length summary_columns).
Qed.

Lemma C6_summary_output_witness :
  let report := [fst (sample_lap_row summary_args steady_data)] in
  details summary_args = false
  /\ exists table : csv_table,
      csv_output summary_args report = Ok table
      /\ csv_header table
         = Some ["lap"; "Filename"; "Beginning time"; "End time"; "Duration";
                 "1st/2nd half drift"; "Avg. BPM"; "1st half avg. BPM";
                 "2nd half avg. BPM"; "1st/2nd hald BPM-only drift"]%string
      /\ csv_records table = csv_records_from 0 summary_columns report
      /\ Forall (fun record => List.length record = 10%nat) (csv_records table).
Proof.
  intros report. split; [reflexivity |].
  destruct (csv_output summary_args report) as [table | e] eqn:E;
    [| vm_compute in E; discriminate E].
  exists table. split; [reflexivity |].
  exact (C6_summary_output summary_args report table eq_refl E).
Defined.

(** The header of a summary report: the speed/heart-rate drift is the
    fifth column and stands before the three heart-rate averages, where
    the documented order has the averages before both drift ratios. *)
Lemma C6_counterexample :
  (table <- snd (sample_main summary_args ["runs/b.tcx"%string]) ;;
   Ok (csv_header table))
  = Ok (Some ("lap"%string :: summary_columns))
  /\ summary_columns <> documented_summary_columns
  /\ column_position "1st/2nd half drift" summary_columns = Some 4%nat
  /\ column_position "Avg. BPM" summary_columns = Some 5%nat
  /\ column_position "Avg. BPM" documented_summary_columns = Some 4%nat
  /\ column_position "1st/2nd half drift" documented_summary_columns = Some 7%nat.
Proof.
  split; [vm_compute; reflexivity |].
  split; [discriminate |].
  repeat split.
Qed.

(** ** Files and laps in the order they are met (C7, C1) *)

Lemma bbind_assign_run {B : Type} (key : string) (v : cell)
      (k : unit -> body B) (r : row) :
  fst (bbind (assign key v) k r) = fst (k tt (row_set key v r)).
Proof. reflexivity. Qed.

Lemma triple_keep {A : Type} (P : row -> Prop) (m : body A) (Q : A -> Prop) :
  triple P m Q -> forall r, P r -> P (fst (m r)).
Proof. intros H r Hr. exact (proj1 (H r Hr)). Qed.

Section Order.

Variable tcx_file_laps : string -> result (list RawLap).
Variable basename : string -> string.
Variable timezone_at : float -> float -> option string.
Variable pytz_timezone : string -> option zone.

Lemma read_tcx_files_from_order (filename_list : list string) :
  forall all_laps result_laps,
    read_tcx_files_from tcx_file_laps basename filename_list all_laps = Ok result_laps ->
    exists per_file : list (list RawLap),
      Forall2 (fun filename file_laps => tcx_file_laps filename = Ok file_laps)
              filename_list per_file
      /\ result_laps = all_laps ++ encounter_order basename filename_list per_file.
Proof.
  induction filename_list as [| filename rest IH]; intros acc res H; simpl in H.
  - injection H as <-. exists []. split; [constructor |].
    unfold encounter_order. simpl. now rewrite app_nil_r.
  - destruct (tcx_file_laps filename) as [file_laps | e] eqn:E; [| discriminate H].
    destruct (IH _ _ H) as (per_file & Hall & ->).
    exists (file_laps :: per_file). split; [constructor; assumption |].
    unfold encounter_order. simpl. now rewrite <- app_assoc.
Qed.

Lemma parse_tcx_lap_from_order (file_laps : list (string * RawLap)) :
  forall laps err result_laps,
    parse_tcx_lap_from file_laps laps = (err, Ok result_laps) ->
    exists new_laps : list LapData,
      Forall2 (fun fl lap_data =>
                 snd (parse_one_tcx_lap (fst fl) (snd fl)) = Ok lap_data)
              file_laps new_laps
      /\ result_laps = laps ++ new_laps.
Proof.
  induction file_laps as [| [filename lap] rest IH]; intros acc err res H.
  - simpl in H. injection H as _ <-. exists [].
    split; [constructor | now rewrite app_nil_r].
  - change (parse_tcx_lap_from ((filename, lap) :: rest) acc)
      with (match parse_one_tcx_lap filename lap with
            | (err, Raise e) => (err, Raise e)
            | (err, Ok lap_data) =>
                let (err', r) := parse_tcx_lap_from rest (acc ++ [lap_data]) in
                (err ++ err', r)
            end) in H.
    destruct (parse_one_tcx_lap filename lap) as [err1 [lap_data | e]] eqn:E;
      [| discriminate H].
    destruct (parse_tcx_lap_from rest (acc ++ [lap_data])) as [err2 r] eqn:E2.
    injection H as _ ->.
    destruct (IH _ _ _ E2) as (new_laps & Hall & ->).
    exists (lap_data :: new_laps). split.
    + constructor; [| exact Hall].
      change (snd (parse_one_tcx_lap filename lap) = Ok lap_data). now rewrite E.
    + now rewrite <- app_assoc.
Qed.

Lemma parse_one_tcx_lap_Filename (filename : string) (lap : RawLap) (lap_data : LapData) :
  snd (parse_one_tcx_lap filename lap) = Ok lap_data -> Filename lap_data = filename.
Proof.
  unfold parse_one_tcx_lap. simpl. intros H.
  apply rbind_Ok in H. destruct H as (total & _ & H).
  apply rbind_Ok in H. destruct H as (Distance & _ & H).
  destruct (_ && _); [discriminate H |].
  apply rbind_Ok in H. destruct H as (series & _ & H).
  now injection H as <-.
Qed.

(** The first statement of the [try] block stores the file name, and no
    later one touches it. *)
Lemma lap_row_Filename (args : Args) (lap : LapData) :
  row_get "Filename" (fst (lap_row_body timezone_at pytz_timezone args lap []))
  = Some (CStr (Filename lap)).
Proof.
  unfold lap_row_body. cbv zeta.
  rewrite bbind_assign_run. cbv beta.
  apply (triple_keep (fun r => row_get "Filename" r = Some (CStr (Filename lap))))
    with (Q := fun _ : unit => True); [| reflexivity].
  repeat first
    [ apply triple_bind_assign;
      [ intros r Hr; rewrite row_get_set_other by reflexivity; exact Hr | ]
    | apply triple_bind_call; intros ? ?
    | apply triple_assign; intros r Hr;
      rewrite row_get_set_other by reflexivity; exact Hr ].
Qed.

Lemma to_csv_records (report : list row) (cols : option (list string))
      (header : bool) (index_label : string) (table : csv_table) :
  to_csv report cols header index_label = Ok table ->
  exists written : list string,
    csv_records table = csv_records_from 0 written report.
Proof.
  unfold to_csv. intros H. apply rbind_Ok in H. destruct H as (written & _ & H).
  injection H as <-. now exists written.
Qed.

Lemma csv_output_records (args : Args) (report : list row) (table : csv_table) :
  csv_output args report = Ok table ->
  exists written : list string,
    csv_records table = csv_records_from 0 written report.
Proof.
  unfold csv_output. destruct (negb (columns args)); apply to_csv_records.
Qed.

Lemma rows_carry_their_file (args : Args) (file_laps : list (string * RawLap))
      (laps : list LapData) :
  Forall2 (fun fl lap_data =>
             snd (parse_one_tcx_lap (fst fl) (snd fl)) = Ok lap_data)
          file_laps laps ->
  map (fun lap_data =>
         row_get "Filename"
                 (fst (lap_row_body timezone_at pytz_timezone args lap_data [])))
      laps
  = map (fun fl => Some (CStr (fst fl))) file_laps.
Proof.
  induction 1 as [| fl lap_data file_laps laps Hfl _ IH]; simpl; [reflexivity |].
  rewrite IH, lap_row_Filename.
  now rewrite (parse_one_tcx_lap_Filename _ _ _ Hfl).
Qed.

Lemma map_result_length {A B : Type} (f : A -> result B) (l : list A) (l' : list B) :
  map_result f l = Ok l' -> List.length l' = List.length l.
Proof.
  revert l'. induction l as [| a l IH]; simpl; intros l' H.
  - now injection H as <-.
  - apply rbind_Ok in H. destruct H as (b & _ & H).
    apply rbind_Ok in H. destruct H as (bs & Hbs & H).
    injection H as <-. simpl. now rewrite (IH _ Hbs).
Qed.

(** The guard of line 141 fires when the first two lengths differ and the
    last two differ. *)
Lemma parse_one_tcx_lap_malformed (filename : string) (lap : RawLap)
      (total : Z) (Distance : list Z) :
  (t <- first_item (xp_TotalTimeSeconds lap) ;; PyLong_FromDouble t) = Ok total ->
  map_result PyLong_FromDouble (xp_TrackpointDistance lap) = Ok Distance ->
  List.length (xp_HeartRateBpm lap) <> List.length (xp_TrackpointDistance lap) ->
  List.length (xp_TrackpointDistance lap) <> List.length (xp_Time lap) ->
  snd (parse_one_tcx_lap filename lap) = Raise (Exception malformed_msg).
Proof.
  intros Ht Hd H1 H2. unfold parse_one_tcx_lap. cbv zeta.
  unfold snd at 1. rewrite Ht. unfold rbind at 1. rewrite Hd. unfold rbind at 1.
  rewrite (map_result_length _ _ _ Hd).
  apply Nat.eqb_neq in H1. apply Nat.eqb_neq in H2. now rewrite H1, H2.
Qed.

Lemma parse_tcx_lap_from_raise (pre post : list (string * RawLap))
      (filename : string) (lap : RawLap) (e : exn) :
  Forall (fun fl => exists lap_data,
              snd (parse_one_tcx_lap (fst fl) (snd fl)) = Ok lap_data) pre ->
  snd (parse_one_tcx_lap filename lap) = Raise e ->
  forall laps,
    snd (parse_tcx_lap_from (pre ++ (filename, lap) :: post) laps) = Raise e.
Proof.
  intros Hpre He. induction Hpre as [| [f l] pre [lap_data Hfl] _ IH]; intros laps.
  - change (([] ++ (filename, lap) :: post)) with ((filename, lap) :: post).
    change (parse_tcx_lap_from ((filename, lap) :: post) laps)
      with (match parse_one_tcx_lap filename lap with
            | (err, Raise e) => (err, Raise e)
            | (err, Ok lap_data) =>
                let (err', r) := parse_tcx_lap_from post (laps ++ [lap_data]) in
                (err ++ err', r)
            end).
    destruct (parse_one_tcx_lap filename lap) as [err r]. simpl in He. now subst r.
  - change (parse_tcx_lap_from (((f, l) :: pre) ++ (filename, lap) :: post) laps)
      with (match parse_one_tcx_lap f l with
            | (err, Raise e) => (err, Raise e)
            | (err, Ok lap_data) =>
                let (err', r) :=
                  parse_tcx_lap_from (pre ++ (filename, lap) :: post)
                                     (laps ++ [lap_data]) in
                (err ++ err', r)
            end).
    change (snd (parse_one_tcx_lap f l) = Ok lap_data) in Hfl.
    destruct (parse_one_tcx_lap f l) as [err r]. simpl in Hfl. subst r.
    specialize (IH (laps ++ [lap_data])).
    destruct (parse_tcx_lap_from (pre ++ (filename, lap) :: post) (laps ++ [lap_data])).
    exact IH.
Qed.

(** C1 (amended).  A lap whose heart-rate and distance sequences differ in
    length, and whose distance and time sequences differ in length, makes
    [parse_tcx_lap] raise the malformed-lap exception (the laps before it
    being well formed and its own numbers readable).  Nothing handles the
    exception: it ends the run, and no report is printed. *)
Theorem C1_malformed_lap_aborts_run (args : Args) (file_list : list string)
        (pre post : list (string * RawLap)) (filename : string) (lap : RawLap)
        (total : Z) (Distance : list Z) :
  read_tcx_files tcx_file_laps basename file_list = Ok (pre ++ (filename, lap) :: post) ->
  Forall (fun fl => exists lap_data,
              snd (parse_one_tcx_lap (fst fl) (snd fl)) = Ok lap_data) pre ->
  (t <- first_item (xp_TotalTimeSeconds lap) ;; PyLong_FromDouble t) = Ok total ->
  map_result PyLong_FromDouble (xp_TrackpointDistance lap) = Ok Distance ->
  List.length (xp_HeartRateBpm lap) <> List.length (xp_TrackpointDistance lap) ->
  List.length (xp_TrackpointDistance lap) <> List.length (xp_Time lap) ->
  snd (parse_tcx_lap (pre ++ (filename, lap) :: post)) = Raise (Exception malformed_msg)
  /\ snd (main tcx_file_laps basename timezone_at pytz_timezone args file_list)
     = Raise (Exception malformed_msg).
Proof.
  intros Hread Hpre Ht Hd H1 H2.
  assert (Hraise : snd (parse_tcx_lap (pre ++ (filename, lap) :: post))
                   = Raise (Exception malformed_msg)).
  { apply parse_tcx_lap_from_raise; [exact Hpre |].
    now apply parse_one_tcx_lap_malformed with (total := total) (Distance := Distance). }
  split; [exact Hraise |].
  unfold main. rewrite Hread.
  destruct (parse_tcx_lap (pre ++ (filename, lap) :: post)) as [err r].
  simpl in Hraise. subst r. reflexivity.
Qed.

End Order.

(** The file named first comes first in the report, although its name
    sorts after the other. *)
Example report_follows_the_argument_list :
  (table <- snd (sample_main summary_args ["runs/b.tcx"; "a.tcx"]%string) ;;
   Ok (map (fun record => (nth 0 record None, nth 1 record None))
           (csv_records table)))
  = Ok [(Some (CInt 0), Some (CStr "b.tcx"));
        (Some (CInt 1), Some (CStr "b.tcx"));
        (Some (CInt 2), Some (CStr "a.tcx"))].
Proof. vm_compute. reflexivity. Qed.

Lemma C1_malformed_lap_aborts_run_witness :
  List.length (xp_HeartRateBpm ragged_lap) <> List.length (xp_TrackpointDistance ragged_lap)
  /\ List.length (xp_TrackpointDistance ragged_lap) <> List.length (xp_Time ragged_lap)
  /\ snd (parse_tcx_lap [("ragged.tcx"%string, ragged_lap); ("ragged.tcx"%string, steady_lap)])
     = Raise (Exception malformed_msg)
  /\ snd (sample_main summary_args ["ragged.tcx"%string]) = Raise (Exception malformed_msg).
Proof.
  assert (H1 : List.length (xp_HeartRateBpm ragged_lap)
               <> List.length (xp_TrackpointDistance ragged_lap)) by discriminate.
  assert (H2 : List.length (xp_TrackpointDistance ragged_lap)
               <> List.length (xp_Time ragged_lap)) by discriminate.
  split; [exact H1 | split; [exact H2 |]].
  exact (C1_malformed_lap_aborts_run sample_files sample_basename
           sample_timezone_at sample_pytz summary_args ["ragged.tcx"%string]
           [] [("ragged.tcx"%string, steady_lap)] "ragged.tcx" ragged_lap
           30%Z [0; 10]%Z eq_refl (Forall_nil _) eq_refl eq_refl H1 H2).
Defined.

(** A file whose first lap has one heart rate, two distances and three
    times, and whose second lap is well formed: the run ends with the
    exception of the first lap and prints nothing, the second lap
    included. *)
Lemma C1_counterexample :
  sample_files "ragged.tcx" = Ok [ragged_lap; steady_lap]
  /\ List.length (xp_HeartRateBpm ragged_lap) = 1%nat
  /\ List.length (xp_TrackpointDistance ragged_lap) = 2%nat
  /\ List.length (xp_Time ragged_lap) = 3%nat
  /\ (exists lap_data, sample_lap_data "ragged.tcx" steady_lap = Ok lap_data)
  /\ snd (sample_main summary_args ["ragged.tcx"%string])
     = Raise (Exception malformed_msg).
Proof.
  repeat split; try (vm_compute; reflexivity).
  eexists. vm_compute. reflexivity.
Qed.

(** The guard of line 141 is a chained comparison: with two heart rates,
    three distances and three times the second comparison fails and the
    guard does not fire; the frame constructor raises instead. *)
Example chained_comparison_misses_a_short_column :
  List.length (xp_HeartRateBpm short_bpm_lap) = 2%nat
  /\ List.length (xp_TrackpointDistance short_bpm_lap) = 3%nat
  /\ List.length (xp_Time short_bpm_lap) = 3%nat
  /\ snd (parse_one_tcx_lap "x.tcx" short_bpm_lap) = Raise ValueError.
Proof. repeat split. Qed.

(** * Further properties of the pipeline *)

(** ** The loop of [parse_laps] *)

Section Loop.

Variable timezone_at : float -> float -> option string.
Variable pytz_timezone : string -> option zone.

Lemma parse_laps_from_handled (args : Args) (laps : list LapData) :
  forallb (lap_handled timezone_at pytz_timezone args) laps = true ->
  forall (i : nat) (all_laps_data : list row),
    parse_laps_from timezone_at pytz_timezone args i laps all_laps_data
    = (skip_messages timezone_at pytz_timezone args i laps,
       Ok (all_laps_data ++ map (lap_row timezone_at pytz_timezone args) laps)).
Proof.
  induction laps as [| lap rest IH]; intros H i acc.
  - simpl. now rewrite app_nil_r.
  - simpl in H. apply andb_true_iff in H. destruct H as [Hlap Hrest].
    simpl. unfold lap_handled in Hlap. unfold lap_complete, lap_row at 1.
    destruct (lap_row_body timezone_at pytz_timezone args lap []) as [r [u | e]];
      simpl in *.
    + rewrite (IH Hrest). now rewrite <- app_assoc.
    + rewrite Hlap, (IH Hrest). now rewrite <- app_assoc.
Qed.

Lemma parse_laps_from_abort (args : Args) (pre post : list LapData)
      (lap : LapData) (e : exn) :
  forallb (lap_handled timezone_at pytz_timezone args) pre = true ->
  snd (lap_row_body timezone_at pytz_timezone args lap []) = Raise e ->
  is_zero_division e = false ->
  forall (i : nat) (all_laps_data : list row),
    parse_laps_from timezone_at pytz_timezone args i (pre ++ lap :: post) all_laps_data
    = (skip_messages timezone_at pytz_timezone args i pre, Raise e).
Proof.
  intros Hpre He Hz. induction pre as [| p pre IH]; intros i acc.
  - simpl. destruct (lap_row_body timezone_at pytz_timezone args lap []) as [r res].
    simpl in He. subst res. now rewrite Hz.
  - simpl in Hpre. apply andb_true_iff in Hpre. destruct Hpre as [Hp Hpre].
    simpl. unfold lap_handled in Hp. unfold lap_complete.
    destruct (lap_row_body timezone_at pytz_timezone args p []) as [r [u | e']];
      simpl in *.
    + apply (IH Hpre).
    + rewrite Hp, (IH Hpre). reflexivity.
Qed.

(** X1.  When the [try] statement of every lap lets nothing out,
    [parse_laps] returns a report with one row per lap, in the order of
    the laps, the rows of the laps whose block raised
    [ZeroDivisionError] included as they stood; for each of these laps,
    and for no other, it prints the exception and the line numbered with
    the position of the lap. *)
Theorem parse_laps_report (args : Args) (laps : list LapData) :
  forallb (lap_handled timezone_at pytz_timezone args) laps = true ->
  parse_laps timezone_at pytz_timezone args laps
  = (skip_messages timezone_at pytz_timezone args 0 laps,
     Ok (map (lap_row timezone_at pytz_timezone args) laps)).
Proof.
  intros H. exact (parse_laps_from_handled args laps H 0%nat []).
Qed.

(** X2.  The first lap whose block raises anything but
    [ZeroDivisionError] ends [parse_laps] with that exception: the rows
    gathered so far are lost and the laps after it are never looked at;
    what was printed for the laps before it stays printed. *)
Theorem parse_laps_first_uncaught (args : Args) (pre post : list LapData)
        (lap : LapData) (e : exn) :
  forallb (lap_handled timezone_at pytz_timezone args) pre = true ->
  snd (lap_row_body timezone_at pytz_timezone args lap []) = Raise e ->
  e <> ZeroDivisionError ->
  parse_laps timezone_at pytz_timezone args (pre ++ lap :: post)
  = (skip_messages timezone_at pytz_timezone args 0 pre, Raise e).
Proof.
  intros Hpre He Hne.
  assert (Hz : is_zero_division e = false)
    by (destruct e; try reflexivity; now elim Hne).
  exact (parse_laps_from_abort args pre post lap e Hpre He Hz 0%nat []).
Qed.

End Loop.

(** ** Which exceptions the block of a lap can raise *)

Definition no_zero_division {A : Type} (x : result A) : Prop :=
  x <> Raise ZeroDivisionError.

Lemma no_zero_division_Ok {A : Type} (a : A) : no_zero_division (Ok a).
Proof. discriminate. Qed.

Lemma no_zero_division_rbind {A B : Type} (r : result A) (k : A -> result B) :
  no_zero_division r -> (forall a, no_zero_division (k a)) ->
  no_zero_division (rbind r k).
Proof.
  intros Hr Hk. destruct r as [a | e]; simpl; [apply Hk |].
  intros H. apply Hr. injection H as ->. reflexivity.
Qed.

Lemma PyLong_FromDouble_no_zero_division (x : float) :
  no_zero_division (PyLong_FromDouble x).
Proof.
  unfold PyLong_FromDouble.
  destruct (float_trunc x); [| destruct (PrimFloat.is_nan x)]; discriminate.
Qed.

Lemma microseconds_to_delta_no_zero_division (us : Z) :
  no_zero_division (microseconds_to_delta us).
Proof. unfold microseconds_to_delta. cbv zeta. destruct (_ <? _)%Z; discriminate. Qed.

Lemma nth_from_end_no_zero_division {A : Type} (k : nat) (l : list A) :
  no_zero_division (nth_from_end k l).
Proof. unfold nth_from_end. destruct (nth_error _ _); discriminate. Qed.

Lemma first_item_no_zero_division {A : Type} (l : list A) :
  no_zero_division (first_item l).
Proof. destruct l; discriminate. Qed.

Lemma float_of_decimal_no_zero_division (s : string) :
  no_zero_division (float_of_decimal s).
Proof.
  unfold float_of_decimal.
  destruct (split_on "." s) as [| i [| f [| g l]]]; try discriminate;
    destruct (digits_val 0 _); discriminate.
Qed.

Create HintDb no_zde.

#[local] Hint Resolve no_zero_division_Ok PyLong_FromDouble_no_zero_division
  microseconds_to_delta_no_zero_division nth_from_end_no_zero_division
  first_item_no_zero_division float_of_decimal_no_zero_division : no_zde.

Ltac no_zde :=
  repeat first
    [ apply no_zero_division_rbind; [ | intros ? ]
    | solve [ auto with no_zde ]
    | match goal with
      | |- no_zero_division (if ?c then _ else _) => destruct c
      | |- no_zero_division (let _ := _ in _) => cbv zeta
      end ].

Lemma py_round_no_zero_division (x : float) : no_zero_division (py_round x).
Proof. unfold py_round. no_zde. Qed.

Lemma timedelta_minutes_no_zero_division (val : float) :
  no_zero_division (timedelta_minutes val).
Proof. unfold timedelta_minutes. no_zde. Qed.

#[local] Hint Resolve py_round_no_zero_division
  timedelta_minutes_no_zero_division : no_zde.

(** Formatting a pace raises [ValueError] or [OverflowError] on [nan] and
    [inf], and never [ZeroDivisionError]. *)
Lemma pace_of_speed_no_zero_division (speed : float) :
  no_zero_division (pace_of_speed speed).
Proof. unfold pace_of_speed, mil_min_val_to_mil_min_string. no_zde. Qed.

Lemma lap_total_distance_no_zero_division (lap : LapData) :
  no_zero_division (lap_total_distance lap).
Proof. unfold lap_total_distance, last_item. no_zde. Qed.

Lemma lap_first_half_no_zero_division (lap : LapData) :
  no_zero_division (lap_first_half lap).
Proof.
  unfold lap_first_half, truncate_after.
  destruct (lap_halftime_value lap); [| discriminate].
  destruct (is_monotonic_increasing _); [discriminate |].
  destruct (is_monotonic_decreasing _); discriminate.
Qed.

Lemma lap_second_half_no_zero_division (lap : LapData) :
  no_zero_division (lap_second_half lap).
Proof.
  unfold lap_second_half.
  destruct (lap_halftime_value lap); [| discriminate].
  destruct (list_max _); [| discriminate].
  destruct (is_monotonic_increasing _); discriminate.
Qed.

#[local] Hint Resolve pace_of_speed_no_zero_division
  lap_total_distance_no_zero_division lap_first_half_no_zero_division
  lap_second_half_no_zero_division : no_zde.






Section Handler.

Variable timezone_at : float -> float -> option string.
Variable pytz_timezone : string -> option zone.




End Handler.

(** ** The fields a row holds *)

Lemma row_keys_set (k : string) (v : cell) (r : row) :
  row_keys (row_set k v r)
  = if existsb (String.eqb k) (row_keys r) then row_keys r else row_keys r ++ [k].
Proof.
  unfold row_keys. induction r as [| [k' v'] r IH]; simpl; [reflexivity |].
  destruct (String.eqb k k') eqn:E; simpl.
  - apply String.eqb_eq in E. now subst k'.
  - rewrite IH. now destruct (existsb (String.eqb k) (map fst r)).
Qed.

(** From a dictionary with the keys [ks], the block leaves one with the
    keys [final] when it ends, and one whose keys satisfy [partial] when it
    raises. *)
Definition block_keys {A : Type} (ks : list string) (m : body A)
           (final : list string) (partial : list string -> Prop) : Prop :=
  forall r, row_keys r = ks ->
    match m r with
    | (r', Ok _) => row_keys r' = final
    | (r', Raise _) => partial (row_keys r')
    end.

Lemma block_keys_bind_assign {B : Type} (ks : list string) (k : string) (v : cell)
      (cont : unit -> body B) (final : list string) (partial : list string -> Prop) :
  existsb (String.eqb k) ks = false ->
  block_keys (ks ++ [k]) (cont tt) final partial ->
  block_keys ks (bbind (assign k v) cont) final partial.
Proof.
  intros Hk Hcont r Hr. unfold bbind, assign. apply Hcont.
  now rewrite row_keys_set, Hr, Hk.
Qed.

Lemma block_keys_bind_call {A B : Type} (ks : list string) (x : result A)
      (cont : A -> body B) (final : list string) (partial : list string -> Prop) :
  partial ks ->
  (forall a, x = Ok a -> block_keys ks (cont a) final partial) ->
  block_keys ks (bbind (call x) cont) final partial.
Proof.
  intros Hp Hcont r Hr. unfold bbind, call.
  destruct x as [a | e]; [now apply Hcont | now rewrite Hr].
Qed.

(** A call that has already returned returns again. *)
Lemma block_keys_bind_call_again {A B : Type} (ks : list string) (x : result A)
      (a : A) (cont : A -> body B) (final : list string)
      (partial : list string -> Prop) :
  x = Ok a ->
  block_keys ks (cont a) final partial ->
  block_keys ks (bbind (call x) cont) final partial.
Proof. intros -> Hcont r Hr. unfold bbind, call. now apply Hcont. Qed.

Lemma block_keys_assign (ks : list string) (k : string) (v : cell)
      (partial : list string -> Prop) :
  existsb (String.eqb k) ks = false ->
  block_keys ks (assign k v) (ks ++ [k]) partial.
Proof. intros Hk r Hr. unfold assign. now rewrite row_keys_set, Hr, Hk. Qed.

(** The keys of a row whose block raised. *)
Definition partial_keys (ks : list string) : Prop :=
  In (List.length ks) partial_row_sizes /\ ks = firstn (List.length ks) row_columns.

Section Keys.

Variable timezone_at : float -> float -> option string.
Variable pytz_timezone : string -> option zone.

Lemma lap_row_body_keys (args : Args) (lap : LapData) :
  block_keys [] (lap_row_body timezone_at pytz_timezone args lap)
             row_columns partial_keys.
Proof.
  unfold lap_row_body. cbv zeta.
  repeat first
    [ apply block_keys_bind_assign; [reflexivity | simpl app]
    | eapply block_keys_bind_call_again; [eassumption |]
    | apply block_keys_bind_call;
      [ split; [simpl; tauto | reflexivity] | intros ? ? ]
    | apply block_keys_assign; reflexivity ].
Qed.

(** X3.  A row whose block ran to its end holds the 24 fields of
    [row_columns], in this order.  A row whose block raised holds the
    first [n] of them, in this order, where [n] is 1, 4, 8, 9, 12, 13, 14,
    17, 18 or 19: the file name is always there, and the fields up to the
    statement that raised. *)
Theorem lap_row_fields (args : Args) (lap : LapData) :
  match snd (lap_row_body timezone_at pytz_timezone args lap []) with
  | Ok _ => row_keys (lap_row timezone_at pytz_timezone args lap) = row_columns
  | Raise _ =>
      exists n : nat,
        In n partial_row_sizes
        /\ row_keys (lap_row timezone_at pytz_timezone args lap)
           = firstn n row_columns
  end.
Proof.
  unfold lap_row.
  pose proof (lap_row_body_keys args lap [] eq_refl) as H.
  destruct (lap_row_body timezone_at pytz_timezone args lap []) as [r [u | e]];
    simpl; [exact H |].
  destruct H as [Hn Hks]. now exists (List.length (row_keys r)).
Qed.

End Keys.

(** ** The columns of a report *)

Lemma existsb_eqb_In (k : string) (l : list string) :
  existsb (String.eqb k) l = true <-> In k l.
Proof.
  rewrite existsb_exists. split.
  - intros (x & Hx & E). apply String.eqb_eq in E. now subst x.
  - intros H. exists k. split; [exact H | apply String.eqb_refl].
Qed.

Lemma add_keys_seen (ks seen : list string) :
  incl ks seen ->
  fold_left (fun acc k => if existsb (String.eqb k) acc then acc else acc ++ [k])
            ks seen = seen.
Proof.
  induction ks as [| k ks IH]; intros H; simpl; [reflexivity |].
  assert (Hk : existsb (String.eqb k) seen = true)
    by (apply existsb_eqb_In, H; now left).
  rewrite Hk. apply IH. intros x Hx. apply H. now right.
Qed.

Lemma add_keys_fresh (ks seen : list string) :
  NoDup (seen ++ ks) ->
  fold_left (fun acc k => if existsb (String.eqb k) acc then acc else acc ++ [k])
            ks seen = seen ++ ks.
Proof.
  revert seen. induction ks as [| k ks IH]; intros seen H; simpl.
  - now rewrite app_nil_r.
  - assert (Hk : existsb (String.eqb k) seen = false).
    { destruct (existsb (String.eqb k) seen) eqn:E; [| reflexivity].
      apply existsb_eqb_In in E. apply NoDup_remove_2 in H.
      exfalso. apply H. apply in_or_app. now left. }
    rewrite Hk. change (seen ++ k :: ks) with (seen ++ [k] ++ ks) in *.
    rewrite app_assoc in *. now apply IH.
Qed.

Lemma firstn_split {A : Type} (m n : nat) (l : list A) :
  (m <= n)%nat -> firstn n l = firstn m l ++ firstn (n - m) (skipn m l).
Proof.
  revert n l. induction m as [| m IH]; intros n l H.
  - now rewrite Nat.sub_0_r.
  - destruct n as [| n]; [lia |]. destruct l as [| a l]; simpl.
    + now rewrite firstn_nil.
    + f_equal. apply IH. lia.
Qed.

Lemma NoDup_firstn {A : Type} (n : nat) (l : list A) :
  NoDup l -> NoDup (firstn n l).
Proof.
  intros H. rewrite <- (firstn_skipn n l) in H.
  now apply NoDup_app_remove_r in H.
Qed.

(** The rows of a report hold, each, the first fields of one list of
    columns: the columns of the report are then those of its longest
    row. *)
Lemma add_new_keys_prefix (cols : list string) (m : nat) (r : row) :
  NoDup cols ->
  row_keys r = firstn (List.length r) cols ->
  add_new_keys (firstn m cols) r = firstn (Nat.max m (List.length r)) cols.
Proof.
  intros Hcols Hr. unfold add_new_keys. rewrite Hr.
  destruct (Nat.le_gt_cases (List.length r) m) as [Hle | Hgt].
  - rewrite Nat.max_l by exact Hle. apply add_keys_seen.
    rewrite (firstn_split (List.length r) m cols Hle).
    intros x Hx. apply in_or_app. now left.
  - rewrite Nat.max_r by lia.
    rewrite (firstn_split m (List.length r) cols) by lia.
    rewrite fold_left_app.
    rewrite (add_keys_seen (firstn m cols) (firstn m cols)) by apply incl_refl.
    apply add_keys_fresh.
    rewrite <- firstn_split by lia. now apply NoDup_firstn.
Qed.

Lemma report_columns_from (cols : list string) (report : list row) :
  NoDup cols ->
  Forall (fun r => row_keys r = firstn (List.length r) cols) report ->
  forall m : nat,
    fold_left add_new_keys report (firstn m cols)
    = firstn (Nat.max m (widest report)) cols.
Proof.
  intros Hcols Hall. induction Hall as [| r report Hr _ IH]; intros m.
  - simpl. now rewrite Nat.max_0_r.
  - simpl. rewrite (add_new_keys_prefix cols m r Hcols Hr), IH.
    unfold widest. simpl. now rewrite Nat.max_assoc.
Qed.

Lemma report_columns_widest (cols : list string) (report : list row) :
  NoDup cols ->
  Forall (fun r => row_keys r = firstn (List.length r) cols) report ->
  report_columns report = firstn (widest report) cols.
Proof.
  intros Hcols Hall.
  exact (report_columns_from cols report Hcols Hall 0%nat).
Qed.

Lemma row_columns_NoDup : NoDup row_columns.
Proof.
  unfold row_columns.
  repeat (constructor; [simpl; intuition discriminate |]). constructor.
Qed.

Lemma summary_columns_need_the_last_field (n : nat) :
  (n < 24)%nat ->
  forallb (fun k => existsb (String.eqb k) (firstn n row_columns)) summary_columns
  = false.
Proof.
  intros H. do 24 (destruct n as [| n]; [reflexivity |]). lia.
Qed.

Section Output.

Variable timezone_at : float -> float -> option string.
Variable pytz_timezone : string -> option zone.

Lemma lap_row_size (args : Args) (lap : LapData) :
  row_keys (lap_row timezone_at pytz_timezone args lap)
  = firstn (List.length (lap_row timezone_at pytz_timezone args lap)) row_columns
  /\ if lap_complete timezone_at pytz_timezone args lap
     then List.length (lap_row timezone_at pytz_timezone args lap) = 24%nat
     else (List.length (lap_row timezone_at pytz_timezone args lap) < 24)%nat.
Proof.
  unfold lap_row, lap_complete.
  pose proof (lap_row_body_keys timezone_at pytz_timezone args lap [] eq_refl) as H.
  destruct (lap_row_body timezone_at pytz_timezone args lap []) as [r [u | e]];
    simpl.
  - assert (Hlen : List.length r = 24%nat).
    { unfold row_keys in H. now rewrite <- (length_map fst r), H. }
    rewrite Hlen. split; [exact H | reflexivity].
  - destruct H as [Hn Hks]. unfold row_keys in *. rewrite length_map in *.
    split; [exact Hks |].
    simpl in Hn. lia.
Qed.

Lemma lap_rows_prefix (args : Args) (laps : list LapData) :
  Forall (fun r => row_keys r = firstn (List.length r) row_columns)
         (map (lap_row timezone_at pytz_timezone args) laps).
Proof.
  apply Forall_forall. intros r Hr. apply in_map_iff in Hr.
  destruct Hr as (lap & <- & _). apply lap_row_size.
Qed.

Lemma widest_lap_rows (args : Args) (laps : list LapData) :
  if existsb (lap_complete timezone_at pytz_timezone args) laps
  then widest (map (lap_row timezone_at pytz_timezone args) laps) = 24%nat
  else (widest (map (lap_row timezone_at pytz_timezone args) laps) < 24)%nat.
Proof.
  induction laps as [| lap laps IH]; [unfold widest; simpl; lia |].
  unfold widest in *. simpl.
  destruct (lap_row_size args lap) as [_ Hlap].
  destruct (lap_complete timezone_at pytz_timezone args lap); simpl;
    destruct (existsb (lap_complete timezone_at pytz_timezone args) laps); lia.
Qed.

(** X4.  The summary report of the rows of a list of laps is written when
    the block of at least one lap ran to its end, and is then the nine
    summary columns of every row, the rows of the laps that raised
    [ZeroDivisionError] included; when no block ran to its end (no lap, or
    every lap skipped) the last summary column is a key of no row and
    [to_csv] raises [KeyError]. *)
Theorem summary_report_needs_a_complete_row (args : Args) (laps : list LapData) :
  details args = false ->
  csv_output args (map (lap_row timezone_at pytz_timezone args) laps)
  = if existsb (lap_complete timezone_at pytz_timezone args) laps
    then Ok (mk_csv (if columns args then Some ("lap"%string :: summary_columns)
                     else None)
                    (csv_records_from 0 summary_columns
                       (map (lap_row timezone_at pytz_timezone args) laps)))
    else Raise KeyError.
Proof.
  intros Hd. unfold csv_output, to_csv. rewrite Hd. simpl negb. cbv iota zeta.
  rewrite (report_columns_widest row_columns _ row_columns_NoDup
             (lap_rows_prefix args laps)).
  pose proof (widest_lap_rows args laps) as Hw.
  destruct (existsb (lap_complete timezone_at pytz_timezone args) laps).
  - rewrite Hw. now destruct (columns args).
  - rewrite (summary_columns_need_the_last_field _ Hw). now destruct (columns args).
Qed.

(** X5.  The detailed report of the rows of a list of laps is always
    written, and its columns are the fields of its longest row: the first
    [n] of [row_columns], where [n] is 24 as soon as the block of one lap
    ran to its end. *)
Theorem details_report_columns (args : Args) (laps : list LapData) :
  details args = true ->
  let report := map (lap_row timezone_at pytz_timezone args) laps in
  let written := firstn (widest report) row_columns in
  csv_output args report
  = Ok (mk_csv (if columns args then Some ("lap"%string :: written) else None)
               (csv_records_from 0 written report))
  /\ (existsb (lap_complete timezone_at pytz_timezone args) laps = true ->
      written = row_columns).
Proof.
  intros Hd report written. split.
  - unfold written, report, csv_output, to_csv. rewrite Hd. simpl negb. cbv iota zeta.
    rewrite (report_columns_widest row_columns _ row_columns_NoDup
               (lap_rows_prefix args laps)).
    now destruct (columns args).
  - intros Hc. pose proof (widest_lap_rows args laps) as Hw. rewrite Hc in Hw.
    unfold written, report. now rewrite Hw.
Qed.

End Output.

(** ** When the handler runs *)


Section Quiet.

Variable timezone_at : float -> float -> option string.
Variable pytz_timezone : string -> option zone.




End Quiet.

(** ** What [parse_tcx_lap] keeps of a lap *)

Lemma zip_trackpoints_columns (Time Bpm Distance : list Z) :
  List.length Bpm = List.length Time ->
  List.length Distance = List.length Time ->
  frame_index (zip_trackpoints Time Bpm Distance) = Time
  /\ frame_Bpm (zip_trackpoints Time Bpm Distance) = Bpm
  /\ frame_Distance (zip_trackpoints Time Bpm Distance) = Distance.
Proof.
  revert Bpm Distance.
  induction Time as [| t Time IH]; intros [| b Bpm] [| d Distance] Hb Hd;
    try discriminate; [now repeat split |].
  injection Hb as Hb. injection Hd as Hd.
  destruct (IH Bpm Distance Hb Hd) as (Ht & Hbpm & Hdist).
  unfold frame_index, frame_Bpm, frame_Distance in *. simpl.
  now rewrite Ht, Hbpm, Hdist.
Qed.

(** A column is taken as it is when it has the length of the index, and
    repeated when it has one element. *)
Lemma fit_column_Ok (n : nat) (column fitted : list Z) :
  fit_column n column = Ok fitted ->
  List.length fitted = n
  /\ (List.length column = n /\ fitted = column
      \/ exists x, column = [x] /\ fitted = repeat x n).
Proof.
  unfold fit_column.
  destruct (List.length column =? n)%nat eqn:E.
  - apply Nat.eqb_eq in E. intros H. injection H as <-. split; [exact E | now left].
  - destruct column as [| x [| y column]]; try discriminate.
    intros H. injection H as <-. split; [apply repeat_length |].
    right. now exists x.
Qed.

Lemma fit_column_refuses (n : nat) (column : list Z) :
  List.length column <> n -> List.length column <> 1%nat ->
  fit_column n column = Raise ValueError.
Proof.
  intros Hn H1. unfold fit_column.
  apply Nat.eqb_neq in Hn. rewrite Hn.
  destruct column as [| x [| y column]]; try reflexivity. now elim H1.
Qed.

Lemma fit_column_raises (n : nat) (column : list Z) (e : exn) :
  fit_column n column = Raise e -> e = ValueError.
Proof.
  unfold fit_column. destruct (_ =? _)%nat; [discriminate |].
  destruct column as [| x [| y column]]; try discriminate;
    intros H; now injection H as <-.
Qed.

Lemma DataFrame_new_columns (Bpm Distance Time : list Z) (series : DataFrame) :
  DataFrame_new Bpm Distance Time = Ok series ->
  exists fitted_Bpm fitted_Distance : list Z,
    fit_column (List.length Time) Bpm = Ok fitted_Bpm
    /\ fit_column (List.length Time) Distance = Ok fitted_Distance
    /\ frame_index series = Time
    /\ frame_Bpm series = fitted_Bpm
    /\ frame_Distance series = fitted_Distance.
Proof.
  unfold DataFrame_new. intros H.
  apply rbind_Ok in H. destruct H as (fb & Hb & H).
  apply rbind_Ok in H. destruct H as (fd & Hd & H).
  injection H as <-. exists fb, fd.
  split; [exact Hb | split; [exact Hd |]].
  apply zip_trackpoints_columns; [apply (fit_column_Ok _ _ _ Hb) | apply (fit_column_Ok _ _ _ Hd)].
Qed.

(** X7.  A lap that [parse_tcx_lap] accepts is kept as it was read: the
    dictionary carries the name of the file and the coordinates of the
    first position (none when the lap has no position), the declared time
    cut to whole seconds, and a frame with one row for each timestamp, in
    document order.  The heart rates are the column [Bpm] as they stand
    when there are as many as timestamps; a single heart rate is repeated
    on every row, for the frame constructor repeats a list of one element
    to the length of the index; likewise the distances, cut to whole
    metres.  No other number of heart rates or distances is accepted. *)
Theorem parsed_lap_reflects_the_lap (filename : string) (lap : RawLap)
        (lap_data : LapData) :
  snd (parse_one_tcx_lap filename lap) = Ok lap_data ->
  let n := List.length (xp_Time lap) in
  let series := Trackpoints_series lap_data in
  Filename lap_data = filename
  /\ Lap_coords lap_data = first_coords lap
  /\ (t <- first_item (xp_TotalTimeSeconds lap) ;; PyLong_FromDouble t)
     = Ok (TotalTimeSeconds lap_data)
  /\ DistanceMeters lap_data = tl (xp_DistanceMeters lap)
  /\ frame_index series = xp_Time lap
  /\ (List.length (xp_HeartRateBpm lap) = n /\ frame_Bpm series = xp_HeartRateBpm lap
      \/ exists x, xp_HeartRateBpm lap = [x] /\ frame_Bpm series = repeat x n)
  /\ exists Distance : list Z,
      map_result PyLong_FromDouble (xp_TrackpointDistance lap) = Ok Distance
      /\ (List.length Distance = n /\ frame_Distance series = Distance
          \/ exists x, Distance = [x] /\ frame_Distance series = repeat x n).
Proof.
  unfold parse_one_tcx_lap. simpl. intros H.
  apply rbind_Ok in H. destruct H as (total & Htotal & H).
  apply rbind_Ok in H. destruct H as (Distance & HDistance & H).
  destruct (_ && _); [discriminate H |].
  apply rbind_Ok in H. destruct H as (series & Hseries & H).
  injection H as <-. simpl.
  apply DataFrame_new_columns in Hseries.
  destruct Hseries as (fb & fd & Hb & Hd & Hi & Hbpm & Hdist).
  apply fit_column_Ok in Hb. apply fit_column_Ok in Hd.
  rewrite Hbpm, Hdist.
  repeat (split; [first [reflexivity | assumption] |]).
  split; [exact (proj2 Hb) |].
  exists Distance. split; [exact HDistance | exact (proj2 Hd)].
Qed.

(** X8.  A lap in which the heart rates, or the distances, are neither as
    many as the timestamps nor exactly one is never accepted (its numbers
    being readable): it ends [parse_tcx_lap] with the exception of line 142
    when the guard fires, and with the [ValueError] of the frame
    constructor when the guard, a chained comparison, does not. *)
Theorem ill_fitting_lap_is_never_accepted (filename : string) (lap : RawLap)
        (total : Z) (Distance : list Z) :
  (t <- first_item (xp_TotalTimeSeconds lap) ;; PyLong_FromDouble t) = Ok total ->
  map_result PyLong_FromDouble (xp_TrackpointDistance lap) = Ok Distance ->
  (List.length (xp_HeartRateBpm lap) <> List.length (xp_Time lap)
   /\ List.length (xp_HeartRateBpm lap) <> 1%nat)
  \/ (List.length (xp_TrackpointDistance lap) <> List.length (xp_Time lap)
      /\ List.length (xp_TrackpointDistance lap) <> 1%nat) ->
  snd (parse_one_tcx_lap filename lap)
  = Raise (if negb (List.length (xp_HeartRateBpm lap)
                    =? List.length (xp_TrackpointDistance lap))%nat
              && negb (List.length (xp_TrackpointDistance lap)
                       =? List.length (xp_Time lap))%nat
           then Exception malformed_msg
           else ValueError).
Proof.
  intros Ht Hd Hill. unfold parse_one_tcx_lap. cbv zeta.
  unfold snd at 1. rewrite Ht. unfold rbind at 1. rewrite Hd. unfold rbind at 1.
  pose proof (map_result_length _ _ _ Hd) as Hlen. rewrite Hlen.
  destruct (negb _ && negb _); [reflexivity |].
  unfold DataFrame_new.
  destruct (fit_column (List.length (xp_Time lap)) (xp_HeartRateBpm lap))
    as [fb | e] eqn:Eb.
  - destruct Hill as [[Hn H1] | [Hn H1]].
    + now rewrite (fit_column_refuses _ _ Hn H1) in Eb.
    + rewrite <- Hlen in Hn, H1. unfold rbind at 1.
      now rewrite (fit_column_refuses _ _ Hn H1).
  - now rewrite (fit_column_raises _ _ _ Eb).
Qed.

(** ** Both halves of a lap *)

Lemma list_min_ge (x : Z) (l : list Z) (m : Z) :
  Forall (fun y => (x <= y)%Z) l -> list_min l = Some m -> (x <= m)%Z.
Proof.
  intros H. revert m. induction H as [| y l Hy _ IH]; intros m Hm; [discriminate |].
  simpl in Hm. destruct (list_min l) as [m' |].
  - injection Hm as <-. specialize (IH m' eq_refl). lia.
  - now injection Hm as <-.
Qed.

(** The first label of an ascending index is its minimum. *)
Lemma ascending_min (x : Z) (l : list Z) :
  is_monotonic_increasing (x :: l) = true -> list_min (x :: l) = Some x.
Proof.
  intros H. destruct (monotonic_cons _ _ H) as [_ Hx]. simpl.
  destruct (list_min l) as [m |] eqn:E; [| reflexivity].
  f_equal. pose proof (list_min_ge x l m Hx E). lia.
Qed.

(** The last label of an ascending index is its maximum. *)
Lemma ascending_max (l : list Z) (q mx : Z) :
  is_monotonic_increasing (l ++ [q]) = true ->
  list_max (l ++ [q]) = Some mx -> mx = q.
Proof.
  revert mx. induction l as [| a l IH]; intros mx Hs Hmx.
  - simpl in Hmx. now injection Hmx as <-.
  - change ((a :: l) ++ [q]) with (a :: (l ++ [q])) in *.
    destruct (monotonic_cons _ _ Hs) as [Hl Ha].
    simpl in Hmx. destruct (list_max (l ++ [q])) as [m |] eqn:E.
    + injection Hmx as <-. rewrite (IH m Hl eq_refl).
      rewrite Forall_forall in Ha.
      assert (a <= q)%Z by (apply Ha, in_or_app; right; now left). lia.
    + destruct l as [| b l]; simpl in E; [discriminate E |].
      destruct (list_max (l ++ [q])); discriminate E.
Qed.

Lemma last_item_app {A : Type} (l : list A) (q : A) : last_item (l ++ [q]) = Ok q.
Proof. unfold last_item, nth_from_end. now rewrite rev_app_distr. Qed.

Lemma halftime_between (mn mx : Z) :
  (mn <= mx)%Z -> (mn <= mn + (mx - mn) / 2 <= mx)%Z.
Proof.
  intros H. pose proof (Z.div_mod (mx - mn) 2).
  pose proof (Z.mod_pos_bound (mx - mn) 2). lia.
Qed.

(** X9.  Of a lap whose trackpoints are in ascending time, the first
    half begins with the first trackpoint and the second half ends with
    the last one: neither half is empty, whatever the timestamps, so the
    averages and distances of the halves are taken over at least one
    trackpoint. *)
Theorem both_halves_hold_a_trackpoint (lap : LapData) (p : trackpoint)
        (rest : DataFrame) :
  Trackpoints_series lap = p :: rest ->
  is_monotonic_increasing (frame_index (p :: rest)) = true ->
  exists first_half second_half : DataFrame,
    lap_first_half lap = Ok first_half
    /\ lap_second_half lap = Ok second_half
    /\ first_item first_half = Ok p
    /\ last_item second_half = last_item (p :: rest).
Proof.
  intros Hseries Hs.
  destruct (exists_last (l := p :: rest)) as (l & q & Hlq); [discriminate |].
  assert (Hmn : list_min (frame_index (p :: rest)) = Some (tp_Time p))
    by exact (ascending_min _ _ Hs).
  destruct (list_max_cons (tp_Time p) (frame_index rest)) as [mx Hmx].
  change (tp_Time p :: frame_index rest) with (frame_index (p :: rest)) in Hmx.
  assert (Hq : mx = tp_Time q).
  { apply (ascending_max (frame_index l)).
    - change [tp_Time q] with (frame_index [q]).
      unfold frame_index in *. now rewrite <- map_app, <- Hlq.
    - change [tp_Time q] with (frame_index [q]).
      unfold frame_index in *. now rewrite <- map_app, <- Hlq. }
  assert (Hle : (tp_Time p <= mx)%Z).
  { apply list_max_upper in Hmx. now inversion Hmx. }
  destruct (halftime_between _ _ Hle) as [Hlo Hhi].
  assert (Hh : lap_halftime_value lap = Some (tp_Time p + (mx - tp_Time p) / 2)%Z).
  { unfold lap_halftime_value. now rewrite Hseries, Hmn, Hmx. }
  eexists _, _. split; [| split; [| split]].
  - unfold lap_first_half, truncate_after. rewrite Hh, Hseries, Hs. reflexivity.
  - unfold lap_second_half. rewrite Hh, Hseries, Hmx, Hs. reflexivity.
  - simpl. apply Z.leb_le in Hlo. now rewrite Hlo.
  - rewrite (slice_rows_filter _ _ _ Hs Hmx), Hlq, filter_app. simpl.
    subst mx. apply Z.leb_le in Hhi. rewrite Hhi. now rewrite !last_item_app.
Qed.

(** ** Laps that end the run *)

Lemma index_ends (series : DataFrame) :
  series <> [] ->
  exists b e : Z,
    first_item (frame_index series) = Ok b /\ last_item (frame_index series) = Ok e.
Proof.
  intros Hne. destruct (exists_last Hne) as (l & q & ->).
  unfold frame_index. rewrite map_app.
  change (map tp_Time [q]) with [tp_Time q]. rewrite last_item_app.
  destruct l as [| p l]; simpl; eauto.
Qed.

Section Aborts.

Variable timezone_at : float -> float -> option string.
Variable pytz_timezone : string -> option zone.

(** X10.  A lap without trackpoints passes [parse_tcx_lap] with an empty
    frame and ends [parse_laps]: the first element of its index is asked
    for, the [IndexError] is not handled, and the row holds the file name
    and nothing else when the run ends. *)
Theorem lap_without_trackpoints_ends_the_run (args : Args)
        (pre post : list LapData) (lap : LapData) :
  forallb (lap_handled timezone_at pytz_timezone args) pre = true ->
  Trackpoints_series lap = [] ->
  lap_row timezone_at pytz_timezone args lap = [("Filename"%string, CStr (Filename lap))]
  /\ parse_laps timezone_at pytz_timezone args (pre ++ lap :: post)
     = (skip_messages timezone_at pytz_timezone args 0 pre, Raise IndexError).
Proof.
  intros Hpre Hempty.
  assert (Hbody : lap_row_body timezone_at pytz_timezone args lap []
                  = ([("Filename"%string, CStr (Filename lap))], Raise IndexError)).
  { unfold lap_row_body, get_lap_times_and_duration. rewrite Hempty. reflexivity. }
  split; [unfold lap_row; now rewrite Hbody |].
  apply parse_laps_from_abort; [exact Hpre | now rewrite Hbody | reflexivity].
Qed.

(** X11.  With the conversion to local time on, a lap recorded at a
    position for which the lookup finds no time zone, or a zone [pytz]
    does not know, ends [parse_laps] with [UnknownTimeZoneError]; the row
    holds the file name and nothing else when the run ends. *)
Theorem lap_without_time_zone_ends_the_run (args : Args)
        (pre post : list LapData) (lap : LapData) (coords : float * float) :
  forallb (lap_handled timezone_at pytz_timezone args) pre = true ->
  Trackpoints_series lap <> [] ->
  Lap_coords lap = Some coords -> local_time args = true ->
  match timezone_at (fst coords) (snd coords) with
  | Some name => pytz_timezone name = None
  | None => True
  end ->
  lap_row timezone_at pytz_timezone args lap = [("Filename"%string, CStr (Filename lap))]
  /\ parse_laps timezone_at pytz_timezone args (pre ++ lap :: post)
     = (skip_messages timezone_at pytz_timezone args 0 pre, Raise UnknownTimeZoneError).
Proof.
  intros Hpre Hne Hc Hl Hzone.
  assert (Htimes : get_lap_times_and_duration timezone_at pytz_timezone args lap
                   = Raise UnknownTimeZoneError).
  { unfold get_lap_times_and_duration.
    destruct (index_ends _ Hne) as (b & e & -> & ->).
    rewrite Hc, Hl. simpl. unfold UTC_datetime2local.
    destruct (timezone_at (fst coords) (snd coords)) as [name |]; [| reflexivity].
    now rewrite Hzone. }
  assert (Hbody : lap_row_body timezone_at pytz_timezone args lap []
                  = ([("Filename"%string, CStr (Filename lap))],
                     Raise UnknownTimeZoneError)).
  { unfold lap_row_body. rewrite Htimes. reflexivity. }
  split; [unfold lap_row; now rewrite Hbody |].
  apply parse_laps_from_abort; [exact Hpre | now rewrite Hbody | reflexivity].
Qed.

End Aborts.

(** ** Options that change nothing *)

Lemma parse_laps_from_same_rows
      (tz1 tz2 : float -> float -> option string) (py1 py2 : string -> option zone)
      (args1 args2 : Args) (laps : list LapData) :
  Forall (fun lap => lap_row_body tz1 py1 args1 lap [] = lap_row_body tz2 py2 args2 lap [])
         laps ->
  forall (i : nat) (all_laps_data : list row),
    parse_laps_from tz1 py1 args1 i laps all_laps_data
    = parse_laps_from tz2 py2 args2 i laps all_laps_data.
Proof.
  induction 1 as [| lap laps Hlap _ IH]; intros i acc; simpl; [reflexivity |].
  rewrite Hlap.
  destruct (lap_row_body tz2 py2 args2 lap []) as [r [u | e]]; [apply IH |].
  now rewrite IH.
Qed.

(** X12.  The time zone services are consulted for no lap without
    coordinates, and for no lap at all when the conversion to local time
    is off: the rows of such laps, and what [parse_laps] returns and prints
    for them, do not depend on what the lookup and [pytz] would answer, and
    their begin and end are the UTC instants of the first and the last
    trackpoint. *)
Theorem no_lookup_without_coordinates
        (tz1 tz2 : float -> float -> option string) (py1 py2 : string -> option zone)
        (args : Args) (laps : list LapData) :
  Forall (fun lap => Lap_coords lap = None \/ local_time args = false) laps ->
  Forall (fun lap =>
            get_lap_times_and_duration tz1 py1 args lap
            = (b <- first_item (frame_index (Trackpoints_series lap)) ;;
               e <- last_item (frame_index (Trackpoints_series lap)) ;;
               Ok (Datetime64 b, Datetime64 e, Timedelta64 (e - b)))) laps
  /\ parse_laps tz1 py1 args laps = parse_laps tz2 py2 args laps.
Proof.
  intros H.
  assert (Htimes : forall tz py lap,
             Lap_coords lap = None \/ local_time args = false ->
             get_lap_times_and_duration tz py args lap
             = (b <- first_item (frame_index (Trackpoints_series lap)) ;;
                e <- last_item (frame_index (Trackpoints_series lap)) ;;
                Ok (Datetime64 b, Datetime64 e, Timedelta64 (e - b)))).
  { intros tz py lap Hlap. unfold get_lap_times_and_duration.
    destruct (first_item _) as [b |]; [| reflexivity].
    destruct (last_item _) as [e |]; [| reflexivity]. simpl.
    destruct Hlap as [-> | ->]; [reflexivity | now destruct (Lap_coords lap)]. }
  split.
  - eapply Forall_impl; [| exact H]. intros lap Hlap. now apply Htimes.
  - apply parse_laps_from_same_rows.
    eapply Forall_impl; [| exact H]. intros lap Hlap. simpl.
    unfold lap_row_body. now rewrite (Htimes tz1 py1 lap Hlap), (Htimes tz2 py2 lap Hlap).
Qed.

Section Pace.

Variable tcx_file_laps : string -> result (list RawLap).
Variable basename : string -> string.
Variable timezone_at : float -> float -> option string.
Variable pytz_timezone : string -> option zone.

(** X13.  A treadmill pace of zero is no treadmill pace: the test of
    lines 194, 206 and 218 takes it for an absent option, the measured
    speeds are used, and the run prints and returns what it does without
    the option.  The conversion of line 103 is never asked to divide by a
    pace of zero. *)
Theorem pace_of_zero_is_no_pace (args : Args) (p : float) (file_list : list string) :
  treadmill args = Some p -> float_truthy p = false ->
  main tcx_file_laps basename timezone_at pytz_timezone args file_list
  = main tcx_file_laps basename timezone_at pytz_timezone
         (mk_Args (details args) (columns args) (local_time args) None) file_list.
Proof.
  intros Ht Hp. destruct args as [d c l t]. simpl in *. subst t.
  unfold main.
  destruct (read_tcx_files tcx_file_laps basename file_list) as [file_laps | e];
    [| reflexivity].
  destruct (parse_tcx_lap file_laps) as [err [laps | e]]; [| reflexivity].
  unfold parse_laps.
  rewrite (parse_laps_from_same_rows timezone_at timezone_at pytz_timezone pytz_timezone
             (mk_Args d c l (Some p)) (mk_Args d c l None) laps); [reflexivity |].
  apply Forall_forall. intros lap _.
  unfold lap_row_body, lap_speed, treadmill_active. cbn [treadmill].
  rewrite Hp. reflexivity.
Qed.

End Pace.

(** ** The run as a whole *)

Lemma csv_records_from_labels (cols : list string) (report : list row) :
  forall j : nat,
    map (hd None) (csv_records_from (Z.of_nat j) cols report)
    = map (fun k => Some (CInt (Z.of_nat k))) (seq j (List.length report)).
Proof.
  induction report as [| r report IH]; intros j; simpl; [reflexivity |].
  f_equal. rewrite <- IH. now rewrite Nat2Z.inj_succ.
Qed.

Lemma encounter_order_length {R : string -> list RawLap -> Prop}
      (basename : string -> string) (files : list string)
      (per_file : list (list RawLap)) :
  Forall2 R files per_file ->
  List.length (encounter_order basename files per_file)
  = List.length (List.concat per_file).
Proof.
  unfold encounter_order.
  induction 1 as [| f laps files per_file _ _ IH]; simpl; [reflexivity |].
  now rewrite !length_app, length_map, IH.
Qed.

Lemma parse_one_tcx_lap_coords (filename : string) (lap : RawLap) (lap_data : LapData) :
  snd (parse_one_tcx_lap filename lap) = Ok lap_data ->
  Lap_coords lap_data = first_coords lap.
Proof.
  unfold parse_one_tcx_lap. simpl. intros H.
  apply rbind_Ok in H. destruct H as (total & _ & H).
  apply rbind_Ok in H. destruct H as (Distance & _ & H).
  destruct (_ && _); [discriminate H |].
  apply rbind_Ok in H. destruct H as (series & _ & H).
  now injection H as <-.
Qed.

Lemma parse_tcx_lap_from_warnings (file_laps : list (string * RawLap)) :
  forall (acc : list LapData) (err : list string) (laps : list LapData),
    parse_tcx_lap_from file_laps acc = (err, Ok laps) ->
    err = coords_warnings file_laps.
Proof.
  induction file_laps as [| [filename lap] rest IH]; intros acc err laps H.
  - simpl in H. now injection H as <- _.
  - change (parse_tcx_lap_from ((filename, lap) :: rest) acc)
      with (match parse_one_tcx_lap filename lap with
            | (err, Raise e) => (err, Raise e)
            | (err, Ok lap_data) =>
                let (err', r) := parse_tcx_lap_from rest (acc ++ [lap_data]) in
                (err ++ err', r)
            end) in H.
    unfold coords_warnings. simpl map. simpl List.concat.
    fold (coords_warnings rest).
    unfold parse_one_tcx_lap in H. cbv zeta in H.
    destruct (rbind _ _) as [lap_data | e]; [| discriminate H].
    destruct (parse_tcx_lap_from rest (acc ++ [lap_data])) as [err2 r] eqn:E2.
    injection H as <- ->. now rewrite (IH _ _ _ E2).
Qed.

Lemma warnings_count (file_laps : list (string * RawLap)) (laps : list LapData) :
  Forall2 (fun fl lap_data =>
             snd (parse_one_tcx_lap (fst fl) (snd fl)) = Ok lap_data)
          file_laps laps ->
  List.length (coords_warnings file_laps) = List.length (without_coords laps).
Proof.
  unfold coords_warnings, without_coords.
  induction 1 as [| [f lap] lap_data file_laps laps Hfl _ IH]; [reflexivity |].
  pose proof (parse_one_tcx_lap_coords _ _ _ Hfl) as Hc.
  cbn [map List.concat filter snd fst] in *. rewrite length_app, IH, Hc.
  now destruct (first_coords lap).
Qed.

(** X14.  When [parse_tcx_lap] returns, it has printed the line about
    missing coordinates once for each lap without a position, in the order
    of the laps, and nothing else: as many lines as there are dictionaries
    with an empty [Lap_coords] among the ones it returns, one for each
    lap. *)
Theorem one_warning_for_each_lap_without_coordinates
        (file_laps : list (string * RawLap)) (err : list string)
        (laps : list LapData) :
  parse_tcx_lap file_laps = (err, Ok laps) ->
  err = coords_warnings file_laps
  /\ List.length laps = List.length file_laps
  /\ List.length err = List.length (without_coords laps).
Proof.
  intros H. unfold parse_tcx_lap in H.
  pose proof (parse_tcx_lap_from_warnings _ _ _ _ H) as ->.
  apply parse_tcx_lap_from_order in H. destruct H as (new_laps & Hall & ->).
  simpl. split; [reflexivity | split].
  - symmetry. exact (Forall2_length Hall).
  - now apply warnings_count.
Qed.

Section Run.

Variable tcx_file_laps : string -> result (list RawLap).
Variable basename : string -> string.
Variable timezone_at : float -> float -> option string.
Variable pytz_timezone : string -> option zone.

Lemma read_tcx_files_from_unreadable (pre post : list string) (filename : string)
      (e : exn) :
  Forall (fun f => exists file_laps, tcx_file_laps f = Ok file_laps) pre ->
  tcx_file_laps filename = Raise e ->
  forall all_laps,
    read_tcx_files_from tcx_file_laps basename (pre ++ filename :: post) all_laps
    = Raise e.
Proof.
  intros Hpre He. induction Hpre as [| f pre [file_laps Hf] _ IH]; intros acc; simpl.
  - now rewrite He.
  - rewrite Hf. apply IH.
Qed.

(** X15.  Every file is read before any lap is looked at: the first file
    of the argument list that cannot be opened, or is not a well-formed
    document, ends the run with the exception of [open] or of [ET.parse],
    wherever it stands in the list, and nothing is printed, neither a
    report nor a line about the laps of the files before it. *)
Theorem unreadable_file_ends_the_run (args : Args) (pre post : list string)
        (filename : string) (e : exn) :
  Forall (fun f => exists file_laps, tcx_file_laps f = Ok file_laps) pre ->
  tcx_file_laps filename = Raise e ->
  main tcx_file_laps basename timezone_at pytz_timezone args (pre ++ filename :: post)
  = ([], Raise e).
Proof.
  intros Hpre He. unfold main, read_tcx_files.
  now rewrite (read_tcx_files_from_unreadable pre post filename e Hpre He).
Qed.

(** X16.  A report that is printed has one record for each lap of the
    files, no lap dropped and none added, and the records are labelled 0,
    1, 2, ... in the order of the laps: the label of a record is the number
    the handler of [parse_laps] prints for a lap it skips. *)
Theorem records_are_numbered_in_lap_order (args : Args) (file_list : list string)
        (err : list string) (table : csv_table) :
  main tcx_file_laps basename timezone_at pytz_timezone args file_list
  = (err, Ok table) ->
  exists per_file : list (list RawLap),
    Forall2 (fun filename file_laps => tcx_file_laps filename = Ok file_laps)
            file_list per_file
    /\ map (hd None) (csv_records table)
       = row_labels (List.length (List.concat per_file)).
Proof.
  unfold main, read_tcx_files, parse_tcx_lap. intros H.
  destruct (read_tcx_files_from tcx_file_laps basename file_list [])
    as [file_laps | e] eqn:Eread; [| discriminate H].
  destruct (parse_tcx_lap_from file_laps []) as [err1 [laps | e]] eqn:Eparse;
    [| discriminate H].
  destruct (parse_laps timezone_at pytz_timezone args laps) as [err2 r] eqn:Erows.
  injection H as _ H. apply rbind_Ok in H. destruct H as (rows & -> & Hcsv).
  apply read_tcx_files_from_order in Eread. destruct Eread as (per_file & Hfiles & ->).
  apply parse_tcx_lap_from_order in Eparse. destruct Eparse as (new_laps & Hlaps & ->).
  simpl in *.
  apply parse_laps_rows in Erows. subst rows.
  destruct (csv_output_records _ _ _ Hcsv) as (written & ->).
  exists per_file. split; [exact Hfiles |].
  rewrite (csv_records_from_labels written _ 0%nat).
  unfold row_labels. rewrite length_map, <- (Forall2_length Hlaps).
  now rewrite (encounter_order_length basename file_list per_file Hfiles).
Qed.

End Run.

(** ** Sample runs *)

Lemma parse_laps_report_witness :
  let args := treadmill_args tiny_pace in
  let laps := [steady_data; brisk_data] in
  forallb (lap_handled sample_timezone_at sample_pytz args) laps = true
  /\ sample_parse_laps args laps
     = (skip_messages sample_timezone_at sample_pytz args 0 laps,
        Ok (map (lap_row sample_timezone_at sample_pytz args) laps))
  /\ skip_messages sample_timezone_at sample_pytz args 0 laps
     = [zero_division_msg; skip_msg 0; zero_division_msg; skip_msg 1].
Proof.
  intros args laps.
  assert (H : forallb (lap_handled sample_timezone_at sample_pytz args) laps = true)
    by (vm_compute; reflexivity).
  split; [exact H | split].
  - exact (parse_laps_report sample_timezone_at sample_pytz args laps H).
  - vm_compute. reflexivity.
Defined.

Lemma parse_laps_first_uncaught_witness :
  forallb (lap_handled sample_timezone_at sample_pytz summary_args) [steady_data] = true
  /\ snd (sample_lap_row summary_args still_data) = Raise ValueError
  /\ sample_parse_laps summary_args ([steady_data] ++ still_data :: [brisk_data])
     = (skip_messages sample_timezone_at sample_pytz summary_args 0 [steady_data],
        Raise ValueError).
Proof.
  assert (Hpre : forallb (lap_handled sample_timezone_at sample_pytz summary_args)
                         [steady_data] = true) by (vm_compute; reflexivity).
  assert (He : snd (lap_row_body sample_timezone_at sample_pytz summary_args
                                 still_data []) = Raise ValueError)
    by (vm_compute; reflexivity).
  split; [exact Hpre | split; [exact He |]].
  apply (parse_laps_first_uncaught sample_timezone_at sample_pytz summary_args
           [steady_data] [brisk_data] still_data ValueError Hpre He).
  discriminate.
Defined.


Lemma summary_report_needs_a_complete_row_witness :
  details summary_args = false
  /\ csv_output summary_args
       (map (lap_row sample_timezone_at sample_pytz summary_args) [steady_data])
     = Ok (mk_csv (Some ("lap"%string :: summary_columns))
                  (csv_records_from 0 summary_columns
                     (map (lap_row sample_timezone_at sample_pytz summary_args)
                          [steady_data])))
  /\ csv_output (treadmill_args tiny_pace)
       (map (lap_row sample_timezone_at sample_pytz (treadmill_args tiny_pace))
            [steady_data; brisk_data])
     = Raise KeyError.
Proof.
  split; [reflexivity | split].
  - exact (summary_report_needs_a_complete_row sample_timezone_at sample_pytz
             summary_args [steady_data] eq_refl).
  - exact (summary_report_needs_a_complete_row sample_timezone_at sample_pytz
             (treadmill_args tiny_pace) [steady_data; brisk_data] eq_refl).
Defined.

Lemma details_report_columns_witness :
  details details_args = true
  /\ csv_output details_args
       (map (lap_row sample_timezone_at sample_pytz details_args) [steady_data])
     = Ok (mk_csv (Some ("lap"%string :: row_columns))
                  (csv_records_from 0 row_columns
                     (map (lap_row sample_timezone_at sample_pytz details_args)
                          [steady_data]))).
Proof.
  split; [reflexivity |].
  destruct (details_report_columns sample_timezone_at sample_pytz details_args
              [steady_data] eq_refl) as [Hcsv Hcols].
  rewrite Hcols in Hcsv by (vm_compute; reflexivity). exact Hcsv.
Defined.

Lemma parsed_lap_reflects_the_lap_witness :
  snd (parse_one_tcx_lap "b.tcx" steady_lap) = Ok steady_data
  /\ frame_index (Trackpoints_series steady_data) = xp_Time steady_lap
  /\ frame_Bpm (Trackpoints_series steady_data) = xp_HeartRateBpm steady_lap
  /\ frame_Distance (Trackpoints_series steady_data) = [0; 10; 20; 30]%Z.
Proof.
  assert (H : snd (parse_one_tcx_lap "b.tcx" steady_lap) = Ok steady_data)
    by (vm_compute; reflexivity).
  destruct (parsed_lap_reflects_the_lap "b.tcx" steady_lap steady_data H)
    as (_ & _ & _ & _ & Hi & Hb & Distance & HD & Hd).
  split; [exact H | split; [exact Hi | split]].
  - destruct Hb as [[_ Hb] | (x & Hx & _)]; [exact Hb | discriminate Hx].
  - injection HD as <-.
    destruct Hd as [[_ Hd] | (x & Hx & _)]; [exact Hd | discriminate Hx].
Defined.

(** One heart rate for three trackpoints: the guard of line 141 does not
    fire (the distances are as many as the timestamps), and the frame
    constructor repeats the heart rate on every row. *)
Example single_heart_rate_is_repeated :
  List.length (xp_HeartRateBpm one_rate_lap) = 1%nat
  /\ List.length (xp_TrackpointDistance one_rate_lap) = 3%nat
  /\ List.length (xp_Time one_rate_lap) = 3%nat
  /\ (lap_data <- snd (parse_one_tcx_lap "x.tcx" one_rate_lap) ;;
      Ok (frame_Bpm (Trackpoints_series lap_data))) = Ok [100; 100; 100]%Z.
Proof. repeat split. Qed.

Lemma ill_fitting_lap_is_never_accepted_witness :
  ((List.length (xp_HeartRateBpm short_bpm_lap) <> List.length (xp_Time short_bpm_lap)
    /\ List.length (xp_HeartRateBpm short_bpm_lap) <> 1%nat)
   \/ (List.length (xp_TrackpointDistance short_bpm_lap)
       <> List.length (xp_Time short_bpm_lap)
       /\ List.length (xp_TrackpointDistance short_bpm_lap) <> 1%nat))
  /\ snd (parse_one_tcx_lap "x.tcx" short_bpm_lap) = Raise ValueError.
Proof.
  assert (H : (List.length (xp_HeartRateBpm short_bpm_lap)
               <> List.length (xp_Time short_bpm_lap)
               /\ List.length (xp_HeartRateBpm short_bpm_lap) <> 1%nat)
              \/ (List.length (xp_TrackpointDistance short_bpm_lap)
                  <> List.length (xp_Time short_bpm_lap)
                  /\ List.length (xp_TrackpointDistance short_bpm_lap) <> 1%nat))
    by (left; split; discriminate).
  split; [exact H |].
  exact (ill_fitting_lap_is_never_accepted "x.tcx" short_bpm_lap 30%Z [0; 10; 20]%Z
           eq_refl eq_refl H).
Defined.

Lemma both_halves_hold_a_trackpoint_witness :
  exists first_half second_half : DataFrame,
    lap_first_half steady_data = Ok first_half
    /\ lap_second_half steady_data = Ok second_half
    /\ first_item first_half = Ok (mk_trackpoint (sec 0) 100 0)
    /\ last_item second_half = Ok (mk_trackpoint (sec 30) 120 30).
Proof.
  exact (both_halves_hold_a_trackpoint steady_data (mk_trackpoint (sec 0) 100 0)
           (frame_of [(10, 110, 10); (20, 110, 20); (30, 120, 30)]%Z)
           eq_refl eq_refl).
Defined.

Lemma lap_without_trackpoints_ends_the_run_witness :
  snd (parse_one_tcx_lap "empty.tcx" empty_lap) = Ok empty_data
  /\ Trackpoints_series empty_data = []
  /\ sample_parse_laps summary_args ([steady_data] ++ empty_data :: [brisk_data])
     = ([], Raise IndexError).
Proof.
  split; [reflexivity | split; [reflexivity |]].
  assert (Hpre : forallb (lap_handled sample_timezone_at sample_pytz summary_args)
                         [steady_data] = true) by (vm_compute; reflexivity).
  destruct (lap_without_trackpoints_ends_the_run sample_timezone_at sample_pytz
              summary_args [steady_data] [brisk_data] empty_data Hpre eq_refl)
    as [_ H].
  unfold sample_parse_laps. rewrite H. vm_compute. reflexivity.
Defined.

Lemma lap_without_time_zone_ends_the_run_witness :
  sample_timezone_at 10 40.5 = None
  /\ sample_parse_laps summary_args ([steady_data] ++ offshore_data :: [brisk_data])
     = ([], Raise UnknownTimeZoneError).
Proof.
  split; [reflexivity |].
  assert (Hpre : forallb (lap_handled sample_timezone_at sample_pytz summary_args)
                         [steady_data] = true) by (vm_compute; reflexivity).
  assert (Hne : Trackpoints_series offshore_data <> []) by discriminate.
  destruct (lap_without_time_zone_ends_the_run sample_timezone_at sample_pytz
              summary_args [steady_data] [brisk_data] offshore_data
              (10, 40.5)%float Hpre Hne eq_refl eq_refl I)
    as [_ H].
  unfold sample_parse_laps. rewrite H. vm_compute. reflexivity.
Defined.

Lemma no_lookup_without_coordinates_witness :
  Forall (fun lap => Lap_coords lap = None \/ local_time summary_args = false)
         [steady_data; brisk_data]
  /\ sample_parse_laps summary_args [steady_data; brisk_data]
     = parse_laps (fun _ _ => None) (fun _ => None) summary_args
                  [steady_data; brisk_data].
Proof.
  assert (H : Forall (fun lap => Lap_coords lap = None
                                 \/ local_time summary_args = false)
                     [steady_data; brisk_data]).
  { constructor; [now left | constructor; [now left | constructor]]. }
  split; [exact H |].
  exact (proj2 (no_lookup_without_coordinates sample_timezone_at (fun _ _ => None)
                  sample_pytz (fun _ => None) summary_args
                  [steady_data; brisk_data] H)).
Defined.

Lemma pace_of_zero_is_no_pace_witness :
  float_truthy 0 = false
  /\ sample_main (treadmill_args 0) ["a.tcx"%string]
     = sample_main summary_args ["a.tcx"%string].
Proof.
  split; [reflexivity |].
  exact (pace_of_zero_is_no_pace sample_files sample_basename sample_timezone_at
           sample_pytz (treadmill_args 0) 0%float ["a.tcx"%string] eq_refl eq_refl).
Defined.

Lemma one_warning_for_each_lap_without_coordinates_witness :
  let file_laps := [("b.tcx"%string, steady_lap); ("b.tcx"%string, outdoor_lap)] in
  parse_tcx_lap file_laps = ([no_coords_msg], Ok [steady_data; outdoor_data])
  /\ [no_coords_msg] = coords_warnings file_laps
  /\ List.length [no_coords_msg] = List.length (without_coords [steady_data; outdoor_data]).
Proof.
  intros file_laps.
  assert (H : parse_tcx_lap file_laps = ([no_coords_msg], Ok [steady_data; outdoor_data]))
    by (vm_compute; reflexivity).
  destruct (one_warning_for_each_lap_without_coordinates file_laps _ _ H)
    as (Hw & _ & Hn).
  split; [exact H | split; [exact Hw | exact Hn]].
Defined.

Lemma unreadable_file_ends_the_run_witness :
  sample_files "missing.tcx" = Raise OSError
  /\ sample_files "broken.tcx" = Raise XMLSyntaxError
  /\ sample_main summary_args
       (["a.tcx"%string] ++ "missing.tcx"%string :: ["broken.tcx"%string])
     = ([], Raise OSError)
  /\ sample_main summary_args
       (["a.tcx"%string] ++ "broken.tcx"%string :: ["missing.tcx"%string])
     = ([], Raise XMLSyntaxError).
Proof.
  assert (Hpre : Forall (fun f => exists file_laps, sample_files f = Ok file_laps)
                        ["a.tcx"%string]).
  { constructor; [eexists; reflexivity | constructor]. }
  split; [reflexivity | split; [reflexivity | split]].
  - exact (unreadable_file_ends_the_run sample_files sample_basename
             sample_timezone_at sample_pytz summary_args ["a.tcx"%string]
             ["broken.tcx"%string] "missing.tcx" OSError Hpre eq_refl).
  - exact (unreadable_file_ends_the_run sample_files sample_basename
             sample_timezone_at sample_pytz summary_args ["a.tcx"%string]
             ["missing.tcx"%string] "broken.tcx" XMLSyntaxError Hpre eq_refl).
Defined.

Lemma records_are_numbered_in_lap_order_witness :
  let file_list := ["runs/b.tcx"; "a.tcx"]%string in
  exists (err : list string) (table : csv_table),
    sample_main summary_args file_list = (err, Ok table)
    /\ exists per_file : list (list RawLap),
        Forall2 (fun filename file_laps => sample_files filename = Ok file_laps)
                file_list per_file
        /\ map (hd None) (csv_records table)
           = row_labels (List.length (List.concat per_file)).
Proof.
  intros file_list.
  destruct (sample_main summary_args file_list) as [err [table | e]] eqn:E;
    [| vm_compute in E; discriminate E].
  exists err, table. split; [reflexivity |].
  exact (records_are_numbered_in_lap_order sample_files sample_basename
           sample_timezone_at sample_pytz summary_args file_list err table E).
Defined.

(** ** A summary report holds no skipped lap *)

Lemma row_get_present (k : string) (r : row) :
  In k (row_keys r) -> row_get k r <> None.
Proof.
  unfold row_keys. induction r as [| [k' v'] r IH]; simpl; [tauto |].
  intros [-> | H].
  - now rewrite String.eqb_refl.
  - destruct (String.eqb k k'); [discriminate | now apply IH].
Qed.


Section Summary.

Variable timezone_at : float -> float -> option string.
Variable pytz_timezone : string -> option zone.




End Summary.

(** ** The pace string *)

Lemma append_assoc (a b c : string) : ((a ++ b) ++ c = a ++ (b ++ c))%string.
Proof. induction a as [| x a IH]; simpl; [reflexivity | now rewrite IH]. Qed.

Lemma colon_free_app (a b : string) :
  colon_free (a ++ b) = colon_free a && colon_free b.
Proof.
  induction a as [| x a IH]; simpl; [reflexivity |].
  rewrite IH. now rewrite andb_assoc.
Qed.

Lemma split_on_colon_free (s : string) :
  colon_free s = true -> split_on ":" s = [s].
Proof.
  induction s as [| c s IH]; simpl; [reflexivity |].
  intros H. apply andb_true_iff in H. destruct H as [Hc Hs].
  apply negb_true_iff in Hc. rewrite Hc, (IH Hs). reflexivity.
Qed.

Lemma split_on_colon_app (a b : string) :
  colon_free a = true ->
  split_on ":" (a ++ String ":" b) = a :: split_on ":" b.
Proof.
  induction a as [| c a IH]; simpl; [reflexivity |].
  intros H. apply andb_true_iff in H. destruct H as [Hc Ha].
  apply negb_true_iff in Hc. rewrite Hc, (IH Ha). reflexivity.
Qed.

Lemma colon_free_uint (d : Decimal.uint) :
  colon_free (NilEmpty.string_of_uint d) = true.
Proof. induction d; simpl; auto. Qed.

Lemma colon_free_str_of_Z (z : Z) : colon_free (str_of_Z z) = true.
Proof.
  unfold str_of_Z, NilZero.string_of_int, NilZero.string_of_uint.
  destruct (Z.to_int z) as [d | d]; destruct d; simpl;
    try reflexivity; apply colon_free_uint.
Qed.

Lemma colon_free_fmt_0d (width : nat) (z : Z) : colon_free (fmt_0d width z) = true.
Proof.
  unfold fmt_0d, zfill. rewrite colon_free_app, colon_free_str_of_Z, andb_true_r.
  induction (width - String.length (str_of_Z z))%nat; simpl; auto.
Qed.

Lemma colon_free_hours_field (d : timedelta) : colon_free (hours_field d) = true.
Proof.
  unfold hours_field. cbv zeta.
  destruct (td_days d =? 0)%Z; [apply colon_free_str_of_Z |].
  rewrite !colon_free_app, !colon_free_str_of_Z.
  now destruct (Z.abs (td_days d) =? 1)%Z.
Qed.

Lemma colon_free_seconds_field (d : timedelta) : colon_free (seconds_field d) = true.
Proof.
  unfold seconds_field.
  destruct (td_microseconds d =? 0)%Z; [apply colon_free_fmt_0d |].
  now rewrite !colon_free_app, !colon_free_fmt_0d.
Qed.

(** [str(delta)] is the days and hours, the minutes, and the seconds,
    with a colon between them. *)
Lemma timedelta_str_fields (d : timedelta) :
  timedelta_str d
  = (hours_field d ++ String ":" (minutes_field d ++ String ":" (seconds_field d)))%string.
Proof.
  unfold timedelta_str, hours_field, minutes_field, seconds_field. cbv zeta.
  destruct (td_days d =? 0)%Z; destruct (td_microseconds d =? 0)%Z;
    repeat (rewrite !append_assoc; simpl); reflexivity.
Qed.

Lemma timedelta_str_split (d : timedelta) :
  split_on ":" (timedelta_str d) = [hours_field d; minutes_field d; seconds_field d].
Proof.
  rewrite timedelta_str_fields.
  rewrite split_on_colon_app by apply colon_free_hours_field.
  rewrite split_on_colon_app by apply colon_free_fmt_0d.
  now rewrite split_on_colon_free by apply colon_free_seconds_field.
Qed.

(** X18.  The pace string of a pace other than zero is the minutes of
    the hour of [timedelta(minutes=val)], two digits, a colon, and the
    seconds with their microseconds rounded to an integer and padded to two
    digits: the hours and the days of a slow pace are dropped, and the
    indexing of the split string never fails. *)
Theorem pace_string_drops_the_hours (val : float) :
  (val =? 0)%float = false ->
  mil_min_val_to_mil_min_string val
  = (delta <- timedelta_minutes val ;;
     secs <- float_of_decimal (seconds_field delta) ;;
     r <- py_round secs ;;
     Ok (minutes_field delta ++ ":" ++ zfill 2 (str_of_Z r))%string).
Proof.
  intros Hval. unfold mil_min_val_to_mil_min_string. rewrite Hval.
  destruct (timedelta_minutes val) as [delta | e]; [| reflexivity].
  simpl rbind. cbv zeta. rewrite timedelta_str_split. reflexivity.
Qed.

Lemma pace_string_drops_the_hours_witness :
  (slow_pace =? 0)%float = false
  /\ (delta <- timedelta_minutes slow_pace ;; Ok (timedelta_str delta))
     = Ok "1:47:17.360000"%string
  /\ mil_min_val_to_mil_min_string slow_pace = Ok "47:17"%string.
Proof.
  split; [reflexivity | split; [vm_compute; reflexivity |]].
  rewrite (pace_string_drops_the_hours slow_pace eq_refl).
  vm_compute. reflexivity.
Defined.


(** * Speeds, heart rates and the order of the rows *)

Lemma bbind_call_run {A B : Type} (x : result A) (a : A) (k : A -> body B) (r : row) :
  x = Ok a -> fst (bbind (call x) k r) = fst (k a r).
Proof. intros ->. reflexivity. Qed.

(** A row whose block ran to its end holds every field. *)
Lemma complete_row_holds (timezone_at : float -> float -> option string)
      (pytz_timezone : string -> option zone) (args : Args) (lap : LapData)
      (u : unit) (k : string) :
  snd (lap_row_body timezone_at pytz_timezone args lap []) = Ok u ->
  In k row_columns ->
  exists v : cell,
    row_get k (fst (lap_row_body timezone_at pytz_timezone args lap [])) = Some v.
Proof.
  intros Hu Hk.
  pose proof (lap_row_body_keys timezone_at pytz_timezone args lap [] eq_refl) as H.
  destruct (lap_row_body timezone_at pytz_timezone args lap []) as [r [u' | e]];
    simpl in Hu; simpl fst; [| discriminate Hu].
  rewrite <- H in Hk. apply row_get_present in Hk.
  destruct (row_get k r) as [v |]; [now exists v | contradiction].
Qed.

(** ** Speeds (C4) *)

Lemma speed_keys_expected_get (c : float) (k : string) :
  In k speed_keys -> row_get k (speed_keys_expected c) = Some (CFloat c).
Proof.
  intros [<- | [<- | [<- | []]]]; reflexivity.
Qed.

Lemma speed_keys_are_row_columns : incl speed_keys row_columns.
Proof.
  intros k H. unfold speed_keys in H. simpl in H.
  repeat (destruct H as [<- | H]; [simpl; tauto |]). contradiction.
Qed.

Section Speeds.

Variable timezone_at : float -> float -> option string.
Variable pytz_timezone : string -> option zone.

(** Without the treadmill option the whole-lap speed is stored as soon as
    the times and the distance of the lap are there: it is the distance
    over the declared time. *)
Lemma whole_lap_speed_stored (args : Args) (lap : LapData)
      (t : timeval * timeval * durval) (Total_distance : float) :
  treadmill_active args = false ->
  get_lap_times_and_duration timezone_at pytz_timezone args lap = Ok t ->
  lap_total_distance lap = Ok Total_distance ->
  row_get "Speed (m/s)" (fst (lap_row_body timezone_at pytz_timezone args lap []))
  = Some (CFloat (np_truediv Total_distance (Z2float (TotalTimeSeconds lap)))).
Proof.
  intros Hoff Ht Hd.
  assert (Hs : lap_speed args (np_truediv Total_distance (Z2float (TotalTimeSeconds lap)))
               = Ok (np_truediv Total_distance (Z2float (TotalTimeSeconds lap)))).
  { unfold lap_speed. now rewrite Hoff. }
  unfold lap_row_body. cbv zeta.
  repeat first
    [ rewrite bbind_assign_run; cbv beta
    | rewrite (bbind_call_run _ _ _ _ Ht); cbv beta
    | rewrite (bbind_call_run _ _ _ _ Hd); cbv beta
    | rewrite (bbind_call_run _ _ _ _ Hs); cbv beta ].
  apply (triple_keep
           (fun r => row_get "Speed (m/s)" r
                     = Some (CFloat (np_truediv Total_distance
                                                (Z2float (TotalTimeSeconds lap))))))
    with (Q := fun _ : unit => True); [| apply row_get_set_same].
  repeat first
    [ apply triple_bind_assign;
      [ intros r Hr; rewrite row_get_set_other by reflexivity; exact Hr | ]
    | apply triple_bind_call; intros ? ?
    | apply triple_assign; intros r Hr;
      rewrite row_get_set_other by reflexivity; exact Hr ].
Qed.

End Speeds.

(** C4.  With the treadmill option active at pace [p], each of the three
    speed fields a row holds is [1 / (p * 60 / METERS2MILES)], whatever the
    distances and times of the lap, and a row whose block ran to its end
    holds all three.  With the option inactive the whole-lap speed is the
    measured total distance, the last distance of the lap less the first,
    over the declared total time; the row holds it as soon as the lap has a
    first and a last trackpoint and its times are there. *)
Theorem C4_lap_speeds (timezone_at : float -> float -> option string)
        (pytz_timezone : string -> option zone) (args : Args) (lap : LapData) :
  let lap_row := fst (lap_row_body timezone_at pytz_timezone args lap []) in
  (forall p : float,
      treadmill args = Some p -> float_truthy p = true ->
      (forall (k : string) (v : cell),
          In k speed_keys -> row_get k lap_row = Some v ->
          v = CFloat (1 / (p * 60 / METERS2MILES)))
      /\ (forall u : unit,
             snd (lap_row_body timezone_at pytz_timezone args lap []) = Ok u ->
             forall k : string,
               In k speed_keys ->
               row_get k lap_row = Some (CFloat (1 / (p * 60 / METERS2MILES)))))
  /\ (treadmill_active args = false ->
      (forall (total_distance : float) (v : cell),
          lap_total_distance lap = Ok total_distance ->
          row_get "Speed (m/s)" lap_row = Some v ->
          v = CFloat (total_distance / Z2float (TotalTimeSeconds lap)))
      /\ (forall (t : timeval * timeval * durval) (d_first d_last : Z),
             get_lap_times_and_duration timezone_at pytz_timezone args lap = Ok t ->
             first_item (frame_Distance (Trackpoints_series lap)) = Ok d_first ->
             last_item (frame_Distance (Trackpoints_series lap)) = Ok d_last ->
             row_get "Speed (m/s)" lap_row
             = Some (CFloat ((Z2float d_last - Z2float d_first)
                             / Z2float (TotalTimeSeconds lap))))).
Proof.
  intros lap_row. split.
  - intros p Ht Hp.
    assert (Hheld : forall (k : string) (v : cell),
               In k speed_keys -> row_get k lap_row = Some v ->
               v = CFloat (1 / (p * 60 / METERS2MILES))).
    { intros k v Hk Hget.
      assert (H : row_agrees (speed_keys_expected (1 / (p * 60 / METERS2MILES))) lap_row).
      { eapply triple_run; [apply body_treadmill_speeds; eassumption
                           | apply row_agrees_nil]. }
      exact (H k _ v (speed_keys_expected_get _ k Hk) Hget). }
    split; [exact Hheld |].
    intros u Hu k Hk.
    destruct (complete_row_holds timezone_at pytz_timezone args lap u k Hu
                (speed_keys_are_row_columns k Hk)) as [v Hv].
    fold lap_row in Hv. rewrite Hv. f_equal. exact (Hheld k v Hk Hv).
  - intros Hoff. split.
    + intros d v Hd Hget.
      assert (H : row_agrees (measured_speed_expected lap) lap_row).
      { eapply triple_run; [apply body_measured_speed; exact Hoff
                           | apply row_agrees_nil]. }
      specialize (H "Speed (m/s)"%string _ v eq_refl Hget).
      rewrite Hd in H. exact H.
    + intros t d_first d_last Ht Hfirst Hlast.
      assert (Hd : lap_total_distance lap = Ok (Z2float d_last - Z2float d_first)%float).
      { unfold lap_total_distance. now rewrite Hlast, Hfirst. }
      exact (whole_lap_speed_stored timezone_at pytz_timezone args lap t _ Hoff Ht Hd).
Qed.

Lemma C4_lap_speeds_witness :
  let treadmill_row := fst (sample_lap_row (treadmill_args 12) steady_data) in
  let measured_row := fst (sample_lap_row summary_args brisk_data) in
  (row_get "Speed (m/s)" treadmill_row = Some (CFloat (1 / (12 * 60 / METERS2MILES)))
   /\ row_get "1st half speed (m/s)" treadmill_row
      = Some (CFloat (1 / (12 * 60 / METERS2MILES)))
   /\ row_get "2nd half speed (m/s)" treadmill_row
      = Some (CFloat (1 / (12 * 60 / METERS2MILES))))
  /\ row_get "Speed (m/s)" measured_row = Some (CFloat ((1610 - 0) / 600)).
Proof.
  intros treadmill_row measured_row.
  pose proof (C4_lap_speeds sample_timezone_at sample_pytz
                (treadmill_args 12) steady_data) as [Ht _].
  pose proof (C4_lap_speeds sample_timezone_at sample_pytz
                summary_args brisk_data) as [_ Hm].
  destruct (Ht 12%float eq_refl eq_refl) as [_ Hall].
  assert (Hu : snd (lap_row_body sample_timezone_at sample_pytz
                                 (treadmill_args 12) steady_data []) = Ok tt)
    by (vm_compute; reflexivity).
  split; [split; [| split] |].
  - apply (Hall tt Hu). simpl. tauto.
  - apply (Hall tt Hu). simpl. tauto.
  - apply (Hall tt Hu). simpl. tauto.
  - destruct (Hm eq_refl) as [_ Hstored].
    exact (Hstored (Datetime64 (sec 0), Datetime64 (sec 600), Timedelta64 (sec 600 - sec 0))
                   0%Z 1610%Z eq_refl eq_refl eq_refl).
Defined.

(** A lap that does not begin at distance zero: the speed is taken over
    the distance covered in the lap, not over the last distance. *)
Example speed_of_a_lap_that_begins_late :
  let lap := mk_LapData None "x.tcx" 10 []
               (frame_of [(0, 100, 500); (10, 110, 530)]%Z) in
  row_get "Speed (m/s)" (fst (sample_lap_row summary_args lap)) = Some (CFloat 3).
Proof. vm_compute. reflexivity. Qed.

(** ** Heart rates and the treadmill option (C10) *)

Lemma bpm_keys_are_row_columns : incl bpm_keys row_columns.
Proof.
  intros k H. unfold bpm_keys in H. simpl in H.
  repeat (destruct H as [<- | H]; [simpl; tauto |]). contradiction.
Qed.

(** The heart-rate fields of the row [r] of a lap: each one the row holds
    has the value the heart rates of the lap give, and the row holds all
    four when the block of the lap ran to its end. *)
Definition holds_heart_rates_of (lap : LapData) (complete : bool) (r : row) : Prop :=
  (forall (k : string) (v : cell),
      In k bpm_keys -> row_get k r = Some v ->
      row_get k (bpm_expected lap) = Some v)
  /\ (complete = true ->
      forall k : string,
        In k bpm_keys ->
        exists v : cell, row_get k (bpm_expected lap) = Some v /\ row_get k r = Some v).

Section HeartRates.

Variable timezone_at : float -> float -> option string.
Variable pytz_timezone : string -> option zone.

Lemma lap_row_heart_rates (args : Args) (lap : LapData) :
  holds_heart_rates_of lap (lap_complete timezone_at pytz_timezone args lap)
                       (lap_row timezone_at pytz_timezone args lap).
Proof.
  assert (Hheld : forall (k : string) (v : cell),
             In k bpm_keys ->
             row_get k (lap_row timezone_at pytz_timezone args lap) = Some v ->
             row_get k (bpm_expected lap) = Some v).
  { intros k v Hk Hv. destruct (bpm_expected_get lap k Hk) as [e He].
    now rewrite (lap_row_bpm timezone_at pytz_timezone args lap k e v He Hv). }
  split; [exact Hheld |].
  intros Hc k Hk. unfold lap_complete in Hc.
  destruct (snd (lap_row_body timezone_at pytz_timezone args lap [])) as [u | e] eqn:E;
    [| discriminate Hc].
  destruct (complete_row_holds timezone_at pytz_timezone args lap u k E
              (bpm_keys_are_row_columns k Hk)) as [v Hv].
  exists v. split; [apply (Hheld k v Hk Hv) | exact Hv].
Qed.

Lemma lap_rows_heart_rates (args : Args) (laps : list LapData) :
  Forall2 (fun lap r =>
             holds_heart_rates_of lap (lap_complete timezone_at pytz_timezone args lap) r)
          laps (map (lap_row timezone_at pytz_timezone args) laps).
Proof.
  induction laps as [| lap laps IH]; simpl; constructor; [| exact IH].
  apply lap_row_heart_rates.
Qed.

End HeartRates.

(** C10 (amended).  Two runs over the same laps that differ in the
    treadmill setting only and that both return a report have one row for
    each lap, in the order of the laps.  In both, a heart-rate field
    (whole-lap, first-half and second-half average BPM, BPM-only drift)
    that a row holds has the value the heart rates of the lap give,
    whatever the setting, and the row of a lap whose block ran to its end
    holds all four: a field that both rows of a lap hold has the same value
    in both. *)
Theorem C10_bpm_fields_agree (timezone_at : float -> float -> option string)
        (pytz_timezone : string -> option zone)
        (details columns local_time : bool) (treadmill1 treadmill2 : option float)
        (laps : list LapData) (err1 err2 : list string) (rows1 rows2 : list row) :
  let args1 := mk_Args details columns local_time treadmill1 in
  let args2 := mk_Args details columns local_time treadmill2 in
  parse_laps timezone_at pytz_timezone args1 laps = (err1, Ok rows1) ->
  parse_laps timezone_at pytz_timezone args2 laps = (err2, Ok rows2) ->
  List.length rows1 = List.length laps
  /\ List.length rows2 = List.length laps
  /\ Forall2 (fun lap row1 =>
                holds_heart_rates_of
                  lap (lap_complete timezone_at pytz_timezone args1 lap) row1)
             laps rows1
  /\ Forall2 (fun lap row2 =>
                holds_heart_rates_of
                  lap (lap_complete timezone_at pytz_timezone args2 lap) row2)
             laps rows2
  /\ Forall2 (fun row1 row2 =>
                forall (k : string) (v1 v2 : cell),
                  In k bpm_keys ->
                  row_get k row1 = Some v1 -> row_get k row2 = Some v2 -> v1 = v2)
             rows1 rows2.
Proof.
  intros args1 args2 H1 H2.
  apply parse_laps_rows in H1. apply parse_laps_rows in H2. subst rows1 rows2.
  rewrite !length_map.
  split; [reflexivity | split; [reflexivity |]].
  split; [apply lap_rows_heart_rates | split; [apply lap_rows_heart_rates |]].
  induction laps as [| lap rest IH]; simpl; constructor; [| exact IH].
  intros k v1 v2 Hk Hv1 Hv2.
  destruct (bpm_expected_get lap k Hk) as [e He].
  rewrite (lap_row_bpm _ _ _ lap k e v1 He Hv1).
  symmetry. exact (lap_row_bpm _ _ _ lap k e v2 He Hv2).
Qed.

Lemma C10_bpm_fields_agree_witness :
  let laps := [steady_data; brisk_data] in
  exists rows1 rows2 : list row,
    sample_parse_laps summary_args laps = ([], Ok rows1)
    /\ sample_parse_laps (treadmill_args 12) laps = ([], Ok rows2)
    /\ List.length rows1 = 2%nat
    /\ List.length rows2 = 2%nat
    /\ Forall2 (fun lap row1 =>
                  holds_heart_rates_of
                    lap (lap_complete sample_timezone_at sample_pytz summary_args lap)
                    row1)
               laps rows1
    /\ Forall2 (fun lap row2 =>
                  holds_heart_rates_of
                    lap (lap_complete sample_timezone_at sample_pytz
                                      (treadmill_args 12) lap)
                    row2)
               laps rows2
    /\ Forall2 (fun row1 row2 =>
                  forall (k : string) (v1 v2 : cell),
                    In k bpm_keys ->
                    row_get k row1 = Some v1 -> row_get k row2 = Some v2 -> v1 = v2)
               rows1 rows2.
Proof.
  intros laps.
  assert (H1 : sample_parse_laps summary_args laps
               = ([], Ok (map (fun lap => fst (sample_lap_row summary_args lap)) laps)))
    by (vm_compute; reflexivity).
  assert (H2 : sample_parse_laps (treadmill_args 12) laps
               = ([], Ok (map (fun lap => fst (sample_lap_row (treadmill_args 12) lap))
                              laps)))
    by (vm_compute; reflexivity).
  eexists. eexists.
  split; [exact H1 | split; [exact H2 |]].
  exact (C10_bpm_fields_agree sample_timezone_at sample_pytz false true true
           None (Some 12%float) laps [] [] _ _ H1 H2).
Defined.

(** The rows of a run whose treadmill pace does not convert (it
    underflows, and [min_miles2meter_sec] raises [ZeroDivisionError]) hold
    the whole-lap average and none of the three fields stored after the
    speed, which the rows of the run without the option hold. *)
Lemma C10_counterexample :
  report_field "Avg. BPM" (snd (sample_parse_laps summary_args [steady_data]))
  = Ok [Some (CFloat 110)]
  /\ report_field "Avg. BPM"
       (snd (sample_parse_laps (treadmill_args tiny_pace) [steady_data]))
     = Ok [Some (CFloat 110)]
  /\ report_field "1st half avg. BPM" (snd (sample_parse_laps summary_args [steady_data]))
     = Ok [Some (CFloat 105)]
  /\ report_field "1st half avg. BPM"
       (snd (sample_parse_laps (treadmill_args tiny_pace) [steady_data]))
     = Ok [None].
Proof. repeat split; vm_compute; reflexivity. Qed.

(** ** Rows in the order of the files and laps (C7) *)

Lemma csv_records_from_report_records (cols : list string) (report : list row) :
  forall j : nat,
    csv_records_from (Z.of_nat j) cols report
    = map (fun numbered : nat * row =>
             Some (CInt (Z.of_nat (fst numbered)))
               :: map (fun k => row_get k (snd numbered)) cols)
          (combine (seq j (List.length report)) report).
Proof.
  induction report as [| r report IH]; intros j; simpl; [reflexivity |].
  f_equal. rewrite <- IH. now rewrite Nat2Z.inj_succ.
Qed.

Lemma map_snd_combine_seq {A B : Type} (f : A -> B) (l : list A) :
  forall j : nat,
    map (fun numbered : nat * A => f (snd numbered)) (combine (seq j (List.length l)) l)
    = map f l.
Proof.
  induction l as [| a l IH]; intros j; simpl; [reflexivity |]. now rewrite IH.
Qed.

Lemma report_records_Filename (cols : list string) (report : list row) :
  map (fun record => nth 1 record None) (report_records ("Filename"%string :: cols) report)
  = map (row_get "Filename") report.
Proof.
  unfold report_records. rewrite map_map. simpl nth.
  apply (map_snd_combine_seq (row_get "Filename")).
Qed.

Section EncounterOrder.

Variable tcx_file_laps : string -> result (list RawLap).
Variable basename : string -> string.
Variable timezone_at : float -> float -> option string.
Variable pytz_timezone : string -> option zone.

Lemma csv_output_written (args : Args) (laps : list LapData) (table : csv_table) :
  let report := map (lap_row timezone_at pytz_timezone args) laps in
  csv_output args report = Ok table ->
  csv_records table = report_records (written_columns args report) report.
Proof.
  intros report H. unfold report_records.
  rewrite <- (csv_records_from_report_records _ report 0%nat).
  unfold csv_output, to_csv, written_columns in *.
  destruct (details args); simpl negb in H; cbv iota zeta in H.
  - subst report.
    rewrite !(report_columns_widest row_columns _ row_columns_NoDup
                (lap_rows_prefix timezone_at pytz_timezone args laps)) in H.
    destruct (negb (columns args)); simpl in H; now injection H as <-.
  - destruct (forallb _ summary_columns);
      [| destruct (negb (columns args)); discriminate H].
    destruct (negb (columns args)); simpl in H; now injection H as <-.
Qed.

Lemma written_columns_Filename (args : Args) (lap : LapData) (laps : list LapData) :
  exists cols : list string,
    written_columns args (map (lap_row timezone_at pytz_timezone args) (lap :: laps))
    = "Filename"%string :: cols.
Proof.
  unfold written_columns. destruct (details args); [| eexists; reflexivity].
  unfold widest. simpl map. simpl fold_right.
  pose proof (lap_row_Filename timezone_at pytz_timezone args lap) as Hf.
  fold (lap_row timezone_at pytz_timezone args lap) in Hf.
  destruct (lap_row timezone_at pytz_timezone args lap) as [| kv r];
    [discriminate Hf |].
  simpl List.length.
  set (w := fold_right Nat.max 0%nat _).
  assert (Hw : exists n, Nat.max (S (List.length r)) w = S n)
    by (destruct w; simpl; eauto).
  destruct Hw as [n ->]. unfold row_columns. simpl firstn. eexists. reflexivity.
Qed.

(** C7.  When the run prints a report, its records are, one for one and
    in this order, the rows of the laps in the order they are met: the
    files in the order of the argument list, whatever their names, and the
    laps of a file in document order.  A record is the position of its lap
    in that order, counted from 0, followed by the fields of the row of
    that lap in the columns written (the summary columns, or with
    [--details] the fields of the longest row); its first field after the
    position is the name of the file of the lap. *)
Theorem C7_rows_in_encounter_order (args : Args) (file_list : list string)
        (err : list string) (table : csv_table) :
  main tcx_file_laps basename timezone_at pytz_timezone args file_list
  = (err, Ok table) ->
  exists (per_file : list (list RawLap)) (laps : list LapData),
    let rows := map (lap_row timezone_at pytz_timezone args) laps in
    Forall2 (fun filename file_laps => tcx_file_laps filename = Ok file_laps)
            file_list per_file
    /\ Forall2 (fun fl lap_data =>
                  snd (parse_one_tcx_lap (fst fl) (snd fl)) = Ok lap_data)
               (encounter_order basename file_list per_file) laps
    /\ csv_records table = report_records (written_columns args rows) rows
    /\ map (fun record => nth 1 record None) (csv_records table)
       = map (fun fl => Some (CStr (fst fl)))
             (encounter_order basename file_list per_file)
    /\ map (row_get "Filename") rows
       = map (fun fl => Some (CStr (fst fl)))
             (encounter_order basename file_list per_file).
Proof.
  unfold main, read_tcx_files, parse_tcx_lap. intros H.
  destruct (read_tcx_files_from tcx_file_laps basename file_list [])
    as [file_laps | e] eqn:Eread; [| discriminate H].
  destruct (parse_tcx_lap_from file_laps []) as [err1 [laps | e]] eqn:Eparse;
    [| discriminate H].
  destruct (parse_laps timezone_at pytz_timezone args laps) as [err2 r] eqn:Erows.
  injection H as _ H. apply rbind_Ok in H. destruct H as (rows & -> & Hcsv).
  apply read_tcx_files_from_order in Eread. destruct Eread as (per_file & Hfiles & ->).
  apply parse_tcx_lap_from_order in Eparse. destruct Eparse as (new_laps & Hlaps & ->).
  simpl in *.
  apply parse_laps_rows in Erows. subst rows.
  exists per_file, new_laps. cbv zeta.
  pose proof (csv_output_written args new_laps table Hcsv) as Hrec. cbv zeta in Hrec.
  pose proof (rows_carry_their_file timezone_at pytz_timezone args _ _ Hlaps) as Hnames.
  assert (Hnames' : map (row_get "Filename")
                        (map (lap_row timezone_at pytz_timezone args) new_laps)
                    = map (fun fl => Some (CStr (fst fl)))
                          (encounter_order basename file_list per_file)).
  { rewrite map_map. exact Hnames. }
  split; [exact Hfiles |]. split; [exact Hlaps |]. split; [exact Hrec |].
  split; [| exact Hnames'].
  rewrite Hrec, <- Hnames'.
  destruct new_laps as [| lap new_laps]; [reflexivity |].
  destruct (written_columns_Filename args lap new_laps) as [cols ->].
  apply report_records_Filename.
Qed.

End EncounterOrder.

Lemma C7_rows_in_encounter_order_witness :
  let file_list := ["runs/b.tcx"; "a.tcx"]%string in
  exists (err : list string) (table : csv_table),
    sample_main summary_args file_list = (err, Ok table)
    /\ exists (per_file : list (list RawLap)) (laps : list LapData),
        let rows := map (lap_row sample_timezone_at sample_pytz summary_args) laps in
        Forall2 (fun filename file_laps => sample_files filename = Ok file_laps)
                file_list per_file
        /\ Forall2 (fun fl lap_data =>
                      snd (parse_one_tcx_lap (fst fl) (snd fl)) = Ok lap_data)
                   (encounter_order sample_basename file_list per_file) laps
        /\ csv_records table = report_records (written_columns summary_args rows) rows
        /\ map (fun record => nth 1 record None) (csv_records table)
           = map (fun fl => Some (CStr (fst fl)))
                 (encounter_order sample_basename file_list per_file)
        /\ map (row_get "Filename") rows
           = map (fun fl => Some (CStr (fst fl)))
                 (encounter_order sample_basename file_list per_file).
Proof.
  intros file_list.
  destruct (sample_main summary_args file_list) as [err [table | e]] eqn:E;
    [| vm_compute in E; discriminate E].
  exists err, table. split; [reflexivity |].
  exact (C7_rows_in_encounter_order sample_files sample_basename
           sample_timezone_at sample_pytz summary_args file_list err table E).
Defined.
